(** * clip-catcher: the ring buffer and the clipper, embedded and verified

    Shallow embedding of [src/lib/ringbuffer.py] and [src/lib/clip.py].
    Python integers are [Z]; Python lists are [list] with the index rules of
    the language written out; a raised exception is a value of [PyExn]. *)

From Stdlib Require Import ZArith QArith Qround Lia.
From Corelib Require Import SpecFloat.
From stdpp Require Import base list list_numbers strings.

Local Open Scope Z_scope.

(** ** Python: exceptions, results, list indexing, integer modulo *)

Inductive PyExn : Type :=
| IndexError (msg : string)
| ZeroDivisionError
| OverflowError
| ValueError
| MemoryError
| Empty
| CvError
| Exception (msg : string).

Inductive result (A : Type) : Type :=
| Ok (a : A)
| Raise (e : PyExn).
Arguments Ok {A} a.
Arguments Raise {A} e.

Definition rbind {A B : Type} (r : result A) (k : A -> result B) : result B :=
  match r with
  | Ok a => k a
  | Raise e => Raise e
  end.

Notation "x <-' r ; k" := (rbind r (fun x => k))
  (at level 100, r at next level, right associativity).

Definition len {A : Type} (l : list A) : Z := Z.of_nat (length l).

(** [a % b] on integers: the sign of the result follows the divisor, which
    is [Z.modulo]; a zero divisor raises. *)
Definition py_mod (a b : Z) : result Z :=
  if b =? 0 then Raise ZeroDivisionError else Ok (a mod b).

(** A list index [i] is valid from [-len] to [len - 1]; negative ones count
    from the end. *)
Definition py_index {A : Type} (l : list A) (i : Z) : option nat :=
  if (0 <=? i) && (i <? len l) then Some (Z.to_nat i)
  else if (- len l <=? i) && (i <? 0) then Some (Z.to_nat (i + len l))
  else None.

Definition py_getitem {A : Type} (l : list A) (i : Z) : result A :=
  match py_index l i with
  | Some n =>
      match l !! n with
      | Some x => Ok x
      | None => Raise (IndexError "list index out of range")
      end
  | None => Raise (IndexError "list index out of range")
  end.

Definition py_setitem {A : Type} (l : list A) (i : Z) (x : A) : result (list A) :=
  match py_index l i with
  | Some n => Ok (<[n := x]> l)
  | None => Raise (IndexError "list assignment index out of range")
  end.

(** The items of [[x] * n] when the list is built: none for [n <= 0]. *)
Definition py_list_repeat {A : Type} (x : A) (n : Z) : list A :=
  replicate (Z.to_nat n) x.

(** The largest index-sized integer, [sys.maxsize]. *)
Definition PY_SSIZE_T_MAX : Z := 2 ^ 63 - 1.

(** [[x] * n]. The count must fit an index-sized integer, else
    [OverflowError]; a list of more than [PY_SSIZE_T_MAX / 8] slots is
    refused with [MemoryError] before any allocation. Below that bound the
    list is built: an allocator that runs out of memory earlier is not
    modelled. *)
Definition py_list_mul {A : Type} (x : A) (n : Z) : result (list A) :=
  if (n <? - PY_SSIZE_T_MAX - 1) || (PY_SSIZE_T_MAX <? n) then Raise OverflowError
  else if PY_SSIZE_T_MAX / 8 <? n then Raise MemoryError
  else Ok (py_list_repeat x n).

(** ** Python floats

    A Python float is an IEEE 754 binary64 number: [spec_float] with
    precision 53 and maximal exponent 1024, rounded to nearest even. *)

Definition prec : Z := 53.
Definition emax : Z := 1024.
Definition float : Type := spec_float.

Definition finite_or_overflow (f : float) : result float :=
  match f with
  | S754_infinity _ => Raise OverflowError
  | _ => Ok f
  end.

(** [float(z)] as done for an integer operand of a float operation: the
    nearest float, [OverflowError] when the integer is too large. *)
Definition float_of_int (z : Z) : result float :=
  finite_or_overflow (binary_normalize prec emax z 0 false).

(** [a / b] on two integers: the correctly rounded quotient. The quotient is
    taken with 57 bits or more and one sticky bit, then rounded once. *)
Definition int_truediv (a b : Z) : result float :=
  if b =? 0 then Raise ZeroDivisionError
  else
    let negate := xorb (a <? 0) (b <? 0) in
    if a =? 0 then Ok (S754_zero negate)
    else
      let k := 57 - Z.log2 (Z.abs a) + Z.log2 (Z.abs b) in
      let num := if 0 <=? k then Z.abs a * 2 ^ k else Z.abs a in
      let den := if 0 <=? k then Z.abs b else Z.abs b * 2 ^ (- k) in
      let sticky := if num mod den =? 0 then 0 else 1 in
      let m := 2 * (num / den) + sticky in
      finite_or_overflow
        (binary_normalize prec emax (if negate then - m else m) (- k - 1) negate).

Definition float_is_zero (f : float) : bool :=
  match f with
  | S754_zero _ => true
  | _ => false
  end.

(** [x * y] and [x / y] on floats; a zero divisor raises. *)
Definition float_mul (x y : float) : float := SFmul prec emax x y.

Definition float_truediv (x y : float) : result float :=
  if float_is_zero y then Raise ZeroDivisionError else Ok (SFdiv prec emax x y).

(** Round half to even of [n / 2 ^ k] for [n >= 0]. *)
Definition round_half_even_shift (n k : Z) : Z :=
  let d := 2 ^ k in
  let q := n / d in
  match (2 * (n mod d)) ?= d with
  | Lt => q
  | Gt => q + 1
  | Eq => if Z.even q then q else q + 1
  end.

(** [round(x)] with one argument: the nearest integer, ties to the even
    one; [ValueError] on a NaN and [OverflowError] on an infinity. *)
Definition py_round (x : float) : result Z :=
  match x with
  | S754_zero _ => Ok 0
  | S754_infinity _ => Raise OverflowError
  | S754_nan => Raise ValueError
  | S754_finite s m e =>
      let n := if 0 <=? e then Z.pos m * 2 ^ e
               else round_half_even_shift (Z.pos m) (- e) in
      Ok (if s then - n else n)
  end.

(** ** ringbuffer.py *)

Module RingBuffer.
Section RingBuffer.
Context {A : Type}.

Record t : Type := mk { buffer : list A; endIndex : Z }.

(** [RingBuffer(size, default)] *)
Definition __init__ (size : Z) (default : A) : result t :=
  buffer <-' py_list_mul default size;
  Ok {| buffer := buffer; endIndex := len buffer - 1 |}.

(** [add] assigns [endIndex] first and the slot second, so an exception of
    the second assignment would leave the new cursor behind: the state
    after the call is returned next to the result. *)
Definition add (self : t) (item : A) : t * result unit :=
  match py_mod (endIndex self + 1) (len (buffer self)) with
  | Raise e => (self, Raise e)
  | Ok e' =>
      let self1 := {| buffer := buffer self; endIndex := e' |} in
      match py_setitem (buffer self1) (endIndex self1) item with
      | Raise e => (self1, Raise e)
      | Ok b' => ({| buffer := b'; endIndex := endIndex self1 |}, Ok tt)
      end
  end.

Definition get (self : t) (index : Z) : result A :=
  if (index <? 0) || (index >=? len (buffer self)) then
    Raise (IndexError "Out of range")
  else
    start_index <-' py_mod (endIndex self + 1) (len (buffer self));
    actual_index <-' py_mod (start_index + index) (len (buffer self));
    py_getitem (buffer self) actual_index.

Definition __len__ (self : t) : Z := len (buffer self).

(** A run of [add] calls from one state, stopping at the first exception. *)
Fixpoint add_all (self : t) (items : list A) : t * result unit :=
  match items with
  | [] => (self, Ok tt)
  | x :: rest =>
      match add self x with
      | (self', Ok _) => add_all self' rest
      | (self', Raise e) => (self', Raise e)
      end
  end.

(** The calls a client can make on a buffer. *)
Inductive call : Type :=
| CallAdd (item : A)
| CallGet (index : Z)
| CallLen.

(** [get] and [len] read only; an exception of any call is the caller's
    and the object stays as the call left it. *)
Definition run_call (self : t) (c : call) : t :=
  match c with
  | CallAdd item => fst (add self item)
  | CallGet _ => self
  | CallLen => self
  end.

Definition run_calls (self : t) (cs : list call) : t :=
  foldl run_call self cs.

End RingBuffer.
Arguments t : clear implicits.
End RingBuffer.

(** ** Vocabulary for the ring buffer *)

Section RingBufferVocabulary.
Context {A : Type}.
Import RingBuffer.
Implicit Types (rb : RingBuffer.t A) (i : Z) (h xs : list A).

(** The physical slot of logical index [i]. *)
Definition slot_of rb i : Z := (endIndex rb + 1 + i) mod len (buffer rb).

(** [holds rb h]: the buffer shows the last [len (buffer rb)] entries of
    the history [h], oldest first. *)
Definition holds rb h : Prop :=
  1 <= len (buffer rb) /\ len (buffer rb) <= len h /\
  forall i, 0 <= i < len (buffer rb) ->
    get rb i = py_getitem h (len h - len (buffer rb) + i).

(** The item inserted [k] calls before the most recent one of the
    insertions [xs] ([k = 0] is the most recent one itself). *)
Definition inserted_calls_before xs (k : Z) : option A :=
  if (0 <=? k) && (k <? len xs) then xs !! Z.to_nat (len xs - 1 - k) else None.

End RingBufferVocabulary.

(** ** clip.py *)

Module Clipper.
Section Clipper.
(** The frames the camera delivers. A buffer slot holds [Some frame] or the
    placeholder [None] the constructor fills it with. *)
Context {Frame : Type}.

Definition PyFrame : Type := option Frame.

(** What is put on the message queue. [OtherMessage] stands for any object
    whose [kind] is neither ["stop"] nor ["clip"]. *)
Inductive Message : Type :=
| ClipMessage (length_ms : Z) (file_name : string)
| StopMessage
| OtherMessage (kind : string).

(** The [cv2.VideoCapture] handed to the constructor: the results its next
    [read()] calls will give ([Some frame] for [(True, frame)], [None] for
    [(False, None)]), its frame size, and how often [release()] was called. *)
Record VideoCapture : Type := {
  pending : list (option Frame);
  frame_width : Z;
  frame_height : Z;
  released : nat
}.

(** What lies outside the program: which [cv2.VideoWriter(...)] and
    [out.write(frame)] calls raise, and [sys.platform]. *)
Record Env : Type := {
  VideoWriter_raises : string -> bool;
  write_raises : PyFrame -> bool;
  platform : string
}.

(** The calls that leave the program, in the order they are made. *)
Inductive Event : Type :=
| Print (text : string)
| WriterOpen (file : string) (fps width height : Z)
| WriterWrite (file : string) (frame : PyFrame)
| WriterRelease (file : string)
| OsSystem (command : string)
| ThreadJoin
| CaptureRelease.

(** The state of the [threading.Thread] object in [_thread]. *)
Inductive Thread : Type :=
| Running
| Finished
| Died (uncaught : PyExn).

Record t : Type := {
  _video_capture : VideoCapture;
  _msg_queue : list Message;
  _thread : option Thread;
  _estimated_fps : Z;
  _frame_buffer : RingBuffer.t PyFrame;
  _ms_per_frame : float;
  (** not a field of the object: the calls made so far, oldest first *)
  events : list Event
}.

Definition set_video_capture (self : t) (vc : VideoCapture) : t :=
  {| _video_capture := vc; _msg_queue := _msg_queue self;
     _thread := _thread self; _estimated_fps := _estimated_fps self;
     _frame_buffer := _frame_buffer self; _ms_per_frame := _ms_per_frame self;
     events := events self |}.

Definition set_msg_queue (self : t) (q : list Message) : t :=
  {| _video_capture := _video_capture self; _msg_queue := q;
     _thread := _thread self; _estimated_fps := _estimated_fps self;
     _frame_buffer := _frame_buffer self; _ms_per_frame := _ms_per_frame self;
     events := events self |}.

Definition set_thread (self : t) (th : option Thread) : t :=
  {| _video_capture := _video_capture self; _msg_queue := _msg_queue self;
     _thread := th; _estimated_fps := _estimated_fps self;
     _frame_buffer := _frame_buffer self; _ms_per_frame := _ms_per_frame self;
     events := events self |}.

Definition set_frame_buffer (self : t) (fb : RingBuffer.t PyFrame) : t :=
  {| _video_capture := _video_capture self; _msg_queue := _msg_queue self;
     _thread := _thread self; _estimated_fps := _estimated_fps self;
     _frame_buffer := fb; _ms_per_frame := _ms_per_frame self;
     events := events self |}.

Definition emits (self : t) (evs : list Event) : t :=
  {| _video_capture := _video_capture self; _msg_queue := _msg_queue self;
     _thread := _thread self; _estimated_fps := _estimated_fps self;
     _frame_buffer := _frame_buffer self; _ms_per_frame := _ms_per_frame self;
     events := events self ++ evs |}.

Definition emit (self : t) (ev : Event) : t := emits self [ev].

(** [video_capture.read()]: the pair [(ret, frame)] and the capture with
    that answer used up, or nothing when the camera has not answered. *)
Definition read (vc : VideoCapture) : option (VideoCapture * (bool * PyFrame)) :=
  match pending vc with
  | [] => None
  | answer :: later =>
      Some ({| pending := later; frame_width := frame_width vc;
               frame_height := frame_height vc; released := released vc |},
            match answer with
            | Some frame => (true, Some frame)
            | None => (false, None)
            end)
  end.

(** How a call ends: it returns, it raises, or it waits for a [read()] the
    camera has not answered ([pending] is used up). Each carries the state
    the call leaves. *)
Inductive outcome (A : Type) : Type :=
| Returned (a : A) (self : t)
| Raised (e : PyExn) (self : t)
| Blocked (self : t).
Arguments Returned {A} a self.
Arguments Raised {A} e self.
Arguments Blocked {A} self.

Definition default_buffer_size : Z := 240 * 60.
Definition default_estimated_fps : Z := 30.

(** [Clipper(video_capture, buffer_size, estimated_fps)]. The thread is
    started last; its iterations are taken by [_start] below. *)
Definition __init__ (video_capture : VideoCapture) (buffer_size estimated_fps : Z)
  : result t :=
  frame_buffer <-' RingBuffer.__init__ buffer_size (None : PyFrame);
  per_second <-' int_truediv 1 estimated_fps;
  thousand <-' float_of_int 1000;
  Ok {| _video_capture := video_capture; _msg_queue := [];
        _thread := Some Running; _estimated_fps := estimated_fps;
        _frame_buffer := frame_buffer;
        _ms_per_frame := float_mul per_second thousand;
        events := [] |}.

Definition is_active (self : t) : bool :=
  match _thread self with
  | Some _ => true
  | None => false
  end.

Definition clip (self : t) (length_ms : Z) (file_name : string) : outcome unit :=
  if negb (is_active self) then Raised (Exception "Clipper is not active") self
  else Returned tt (set_msg_queue self (_msg_queue self ++ [ClipMessage length_ms file_name])).

(** [min(round(length_ms / self._ms_per_frame), len(self._frame_buffer))] *)
Definition num_frames (self : t) (length_ms : Z) : result Z :=
  l <-' float_of_int length_ms;
  q <-' float_truediv l (_ms_per_frame self);
  r <-' py_round q;
  Ok (Z.min r (RingBuffer.__len__ (_frame_buffer self))).

(** The [for] loop of [_save_clip] over the indices still to write. *)
Fixpoint write_frames (env : Env) (file : string) (indices : list Z) (self : t)
  : outcome unit :=
  match indices with
  | [] => Returned tt self
  | i :: rest =>
      match RingBuffer.get (_frame_buffer self) i with
      | Raise e => Raised e self
      | Ok frame =>
          if write_raises env frame then Raised CvError self
          else write_frames env file rest (emit self (WriterWrite file frame))
      end
  end.

Definition _save_clip (env : Env) (self : t) (length_ms : Z) (file : string)
  : outcome unit :=
  match num_frames self length_ms with
  | Raise e => Raised e self
  | Ok num_frames =>
      let size := RingBuffer.__len__ (_frame_buffer self) in
      let start_frame := size - num_frames in
      let width := frame_width (_video_capture self) in
      let height := frame_height (_video_capture self) in
      if VideoWriter_raises env file then Raised CvError self
      else
        let self1 := emit self (WriterOpen file (_estimated_fps self) width height) in
        match write_frames env file (seqZ start_frame (size - start_frame)) self1 with
        | Returned _ self2 =>
            let self3 := emit self2 (WriterRelease file) in
            let self4 := emit self3 (Print ("Saved clip to " +:+ file)) in
            Returned tt
              (if String.eqb (platform env) "darwin"
               then emit self4 (OsSystem ("open " +:+ file))
               else self4)
        | other => other
        end
  end.

Inductive LoopStep : Type := Continue | Break.

(** The [try] block of the loop: one message is taken without waiting. *)
Definition handle_message (env : Env) (self : t) : outcome LoopStep :=
  match _msg_queue self with
  | [] => Raised Empty self
  | msg :: rest =>
      let self1 := set_msg_queue self rest in
      match msg with
      | StopMessage => Returned Break self1
      | ClipMessage length_ms file_name =>
          match _save_clip env self1 length_ms file_name with
          | Returned _ self2 => Returned Continue self2
          | Raised e self2 => Raised e self2
          | Blocked self2 => Blocked self2
          end
      | OtherMessage _ => Raised (Exception "Unknown message type") self1
      end
  end.

(** [except Empty: continue] *)
Definition except_Empty (o : outcome LoopStep) : outcome LoopStep :=
  match o with
  | Raised Empty self => Returned Continue self
  | _ => o
  end.

(** One pass through the body of [while True] in [_start]. *)
Definition iteration (env : Env) (self : t) : outcome LoopStep :=
  match read (_video_capture self) with
  | None => Blocked self
  | Some (vc, (ret, frame)) =>
      let self1 := set_video_capture self vc in
      if negb ret then
        Returned Continue (emit self1 (Print "Unable to capture video frame"))
      else
        match RingBuffer.add (_frame_buffer self1) frame with
        | (fb, Raise e) => Raised e (set_frame_buffer self1 fb)
        | (fb, Ok _) => except_Empty (handle_message env (set_frame_buffer self1 fb))
        end
  end.

(** [_start]: at most [fuel] passes. *)
Fixpoint _start (env : Env) (fuel : nat) (self : t) : outcome unit :=
  match fuel with
  | O => Blocked self
  | S fuel' =>
      match iteration env self with
      | Returned Continue self' => _start env fuel' self'
      | Returned Break self' => Returned tt self'
      | Raised e self' => Raised e self'
      | Blocked self' => Blocked self'
      end
  end.

(** The worker thread takes up to [passes] passes of [_start] while the
    caller does something else. The thread ends when [_start] returns or
    lets an exception escape. *)
Definition thread_passes (env : Env) (passes : nat) (self : t) : t :=
  match _thread self with
  | Some Running =>
      match _start env passes self with
      | Returned _ self' => set_thread self' (Some Finished)
      | Raised e self' => set_thread self' (Some (Died e))
      | Blocked self' => self'
      end
  | _ => self
  end.

(** The thread runs as far as the camera answers. Every pass takes one
    answer, so one pass more than there are answers is enough. *)
Definition run_thread (env : Env) (self : t) : t :=
  thread_passes env (S (length (pending (_video_capture self)))) self.

(** [self._thread.join()]: returns once the thread has ended. *)
Definition join (env : Env) (self : t) : outcome unit :=
  let self1 := run_thread env (emit self ThreadJoin) in
  match _thread self1 with
  | Some Running => Blocked self1
  | _ => Returned tt self1
  end.

Definition release (self : t) : t :=
  let vc := _video_capture self in
  emit (set_video_capture self
          {| pending := pending vc; frame_width := frame_width vc;
             frame_height := frame_height vc; released := S (released vc) |})
       CaptureRelease.

Definition stop (env : Env) (self : t) : outcome unit :=
  if negb (is_active self) then Returned tt self
  else
    let self1 := set_msg_queue self (_msg_queue self ++ [StopMessage]) in
    match join env self1 with
    | Returned _ self2 => Returned tt (release self2)
    | other => other
    end.

Definition state_of {A : Type} (o : outcome A) : t :=
  match o with
  | Returned _ self => self
  | Raised _ self => self
  | Blocked self => self
  end.

(** What happens to a Clipper: calls of its methods by the caller, and
    passes of the worker thread in between. *)
Inductive call : Type :=
| CallClip (length_ms : Z) (file_name : string)
| CallStop
| CallIsActive
| WorkerPasses (passes : nat).

Definition run_call (env : Env) (self : t) (c : call) : t :=
  match c with
  | CallClip length_ms file_name => state_of (clip self length_ms file_name)
  | CallStop => state_of (stop env self)
  | CallIsActive => self
  | WorkerPasses passes => thread_passes env passes self
  end.

Definition run_calls (env : Env) (self : t) (cs : list call) : t :=
  foldl (run_call env) self cs.

End Clipper.
Arguments t : clear implicits.
Arguments Message : clear implicits.
Arguments VideoCapture : clear implicits.
Arguments Env : clear implicits.
Arguments Event : clear implicits.
Arguments outcome : clear implicits.
Arguments call : clear implicits.
Arguments Returned {Frame A} a self.
Arguments Raised {Frame A} e self.
Arguments Blocked {Frame A} self.
End Clipper.

(** ** loudness.py *)

Module LoudnessDetector.
Section LoudnessDetector.
(** numpy is taken as given: [Audio] is the array
    [np.frombuffer(data, dtype=np.int16)] of one buffer read from the stream,
    [np_mean_abs] is [np.mean(np.abs(audio_array))] and [mean_gt] is the test
    [mean > self._threshold]. *)
Context {Audio Mean : Type}.
Variable np_mean_abs : Audio -> Mean.
Variable mean_gt : Mean -> Z -> bool.

Definition FRAMES_PER_BUFFER : Z := 1024.

Inductive Event : Type :=
| Print (text : string)
| Sleep (seconds : float)
| ThreadJoin
| StreamStop
| StreamClose
| Terminate.

Inductive Thread : Type :=
| Running
| Finished
| Died (uncaught : PyExn).

(** [stream] holds the buffers the device will still deliver to
    [self._stream.read]; [events] is not a field of the object: the calls
    made so far, oldest first. *)
Record t : Type := {
  stream : list Audio;
  _threshold : Z;
  _buffer_ms : Z;
  _in_queue : list string;
  out_queue : list Mean;
  _thread : Thread;
  _active : bool;
  events : list Event
}.

Definition set_stream (self : t) (s : list Audio) : t :=
  {| stream := s; _threshold := _threshold self; _buffer_ms := _buffer_ms self;
     _in_queue := _in_queue self; out_queue := out_queue self;
     _thread := _thread self; _active := _active self; events := events self |}.

Definition set_in_queue (self : t) (q : list string) : t :=
  {| stream := stream self; _threshold := _threshold self; _buffer_ms := _buffer_ms self;
     _in_queue := q; out_queue := out_queue self;
     _thread := _thread self; _active := _active self; events := events self |}.

Definition set_out_queue (self : t) (q : list Mean) : t :=
  {| stream := stream self; _threshold := _threshold self; _buffer_ms := _buffer_ms self;
     _in_queue := _in_queue self; out_queue := q;
     _thread := _thread self; _active := _active self; events := events self |}.

Definition set_thread (self : t) (th : Thread) : t :=
  {| stream := stream self; _threshold := _threshold self; _buffer_ms := _buffer_ms self;
     _in_queue := _in_queue self; out_queue := out_queue self;
     _thread := th; _active := _active self; events := events self |}.

Definition set_active (self : t) (b : bool) : t :=
  {| stream := stream self; _threshold := _threshold self; _buffer_ms := _buffer_ms self;
     _in_queue := _in_queue self; out_queue := out_queue self;
     _thread := _thread self; _active := b; events := events self |}.

Definition emits (self : t) (evs : list Event) : t :=
  {| stream := stream self; _threshold := _threshold self; _buffer_ms := _buffer_ms self;
     _in_queue := _in_queue self; out_queue := out_queue self;
     _thread := _thread self; _active := _active self; events := events self ++ evs |}.

Definition emit (self : t) (ev : Event) : t := emits self [ev].

Inductive outcome (A : Type) : Type :=
| Returned (a : A) (self : t)
| Raised (e : PyExn) (self : t)
| Blocked (self : t).
Arguments Returned {A} a self.
Arguments Raised {A} e self.
Arguments Blocked {A} self.

Definition state_of {A : Type} (o : outcome A) : t :=
  match o with
  | Returned _ self => self
  | Raised _ self => self
  | Blocked self => self
  end.

(** [LoudnessDetector(threshold, buffer_ms)] on an opened stream. *)
Definition __init__ (device : list Audio) (threshold buffer_ms : Z) : t :=
  {| stream := device; _threshold := threshold; _buffer_ms := buffer_ms;
     _in_queue := []; out_queue := []; _thread := Running; _active := true;
     events := [] |}.

Definition float_is_negative (f : float) : bool :=
  match f with
  | S754_finite true _ _ => true
  | S754_infinity true => true
  | _ => false
  end.

(** [time.sleep(self._buffer_ms / 1000)]: a negative length raises. *)
Definition sleep (self : t) : outcome unit :=
  match int_truediv (_buffer_ms self) 1000 with
  | Raise e => Raised e self
  | Ok seconds =>
      if float_is_negative seconds then Raised ValueError self
      else Returned tt (emit self (Sleep seconds))
  end.

Inductive LoopStep : Type := Continue | Break.

(** The [try] block: one message is taken without waiting. *)
Definition handle_message (self : t) : outcome LoopStep :=
  match _in_queue self with
  | [] => Returned Continue self
  | msg :: rest =>
      if String.eqb msg "stop" then Returned Break (set_in_queue self rest)
      else Raised (Exception "Unknown message type") (set_in_queue self rest)
  end.

(** One pass through the body of [while True] in [_start]. *)
Definition iteration (self : t) : outcome LoopStep :=
  match stream self with
  | [] => Blocked self
  | audio_array :: later =>
      let self1 := set_stream self later in
      let mean := np_mean_abs audio_array in
      if mean_gt mean (_threshold self1) then
        let self2 := emit self1 (Print "Detected loud sound") in
        let self3 := set_out_queue self2 (out_queue self2 ++ [mean]) in
        match sleep self3 with
        | Returned _ self4 => handle_message self4
        | Raised e self4 => Raised e self4
        | Blocked self4 => Blocked self4
        end
      else handle_message self1
  end.

Fixpoint _start (fuel : nat) (self : t) : outcome unit :=
  match fuel with
  | O => Blocked self
  | S fuel' =>
      match iteration self with
      | Returned Continue self' => _start fuel' self'
      | Returned Break self' => Returned tt self'
      | Raised e self' => Raised e self'
      | Blocked self' => Blocked self'
      end
  end.

(** The worker thread takes up to [passes] passes. *)
Definition thread_passes (passes : nat) (self : t) : t :=
  match _thread self with
  | Running =>
      match _start passes self with
      | Returned _ self' => set_thread self' Finished
      | Raised e self' => set_thread self' (Died e)
      | Blocked self' => self'
      end
  | _ => self
  end.

(** [self._thread.join()]: every pass takes one buffer, so one pass more than
    there are buffers is as far as the thread gets. *)
Definition join (self : t) : outcome unit :=
  let self1 := thread_passes (S (length (stream self))) (emit self ThreadJoin) in
  match _thread self1 with
  | Running => Blocked self1
  | _ => Returned tt self1
  end.

Definition stop (self : t) : outcome unit :=
  if negb (_active self) then Returned tt self
  else
    let self1 := set_active self false in
    let self2 := set_in_queue self1 (_in_queue self1 ++ ["stop"]) in
    match join self2 with
    | Returned _ self3 =>
        Returned tt (emits self3 [StreamStop; StreamClose; Terminate])
    | other => other
    end.

End LoudnessDetector.
Arguments t : clear implicits.
Arguments outcome : clear implicits.
Arguments Returned {Audio Mean A} a self.
Arguments Raised {Audio Mean A} e self.
Arguments Blocked {Audio Mean A} self.
End LoudnessDetector.

(** ** Sample inputs *)

Module Sample.
Import Clipper.

(** A camera with three frames to deliver, numbered 1 to 3. *)
Definition capture : VideoCapture nat :=
  {| pending := [Some 1%nat; Some 2%nat; Some 3%nat];
     frame_width := 640; frame_height := 480; released := 0 |}.

(** A camera whose first read fails. *)
Definition flaky_capture : VideoCapture nat :=
  {| pending := [None; Some 1%nat];
     frame_width := 640; frame_height := 480; released := 0 |}.

(** No writer call raises. *)
Definition quiet_env : Env nat :=
  {| VideoWriter_raises := fun _ => false;
     write_raises := fun _ => false;
     platform := "linux" |}.

(** [(1 / 30) * 1000] and [(1 / 13) * 1000] as binary64 numbers:
    33.333333333333336 and 76.92307692307693. *)
Definition ms_per_frame_30 : float := S754_finite false 4691249611844267 (-47).
Definition ms_per_frame_13 : float := S754_finite false 5412980321358770 (-46).

(** The Clipper [Clipper(vc, size, fps)] returns, given the value of
    [(1 / fps) * 1000]. *)
Definition clipper (vc : VideoCapture nat) (size fps : Z) (ms_per_frame : float)
  : Clipper.t nat :=
  {| _video_capture := vc; _msg_queue := []; _thread := Some Running;
     _estimated_fps := fps;
     _frame_buffer := {| RingBuffer.buffer := py_list_repeat None size;
                         RingBuffer.endIndex := size - 1 |};
     _ms_per_frame := ms_per_frame; events := [] |}.

End Sample.

(** ** The specification's reading of the frame count *)






(** * Theorems *)

(** ** Python helpers *)

Section PyFacts.
Context {A : Type}.
Implicit Types (l : list A) (i : Z).

Lemma len_nonneg l : 0 <= len l.
Proof. unfold len. lia. Qed.

Lemma len_insert l (n : nat) (x : A) : len (<[n := x]> l) = len l.
Proof. unfold len. now rewrite length_insert. Qed.

Lemma len_repeat (x : A) (n : Z) : len (py_list_repeat x n) = Z.max 0 n.
Proof. unfold len, py_list_repeat. rewrite length_replicate. lia. Qed.

Lemma py_mod_ok (a b : Z) : b <> 0 -> py_mod a b = Ok (a mod b).
Proof. intros Hb. unfold py_mod. now destruct (Z.eqb_spec b 0). Qed.

Lemma py_index_in_range l i :
  0 <= i < len l -> py_index l i = Some (Z.to_nat i).
Proof.
  intros Hi. unfold py_index.
  destruct (Z.leb_spec 0 i); destruct (Z.ltb_spec i (len l)); simpl; auto; lia.
Qed.

Lemma py_getitem_in_range l i :
  0 <= i < len l -> py_getitem l i = match l !! Z.to_nat i with
                                      | Some x => Ok x
                                      | None => Raise (IndexError "list index out of range")
                                      end.
Proof. intros Hi. unfold py_getitem. now rewrite py_index_in_range. Qed.

Lemma py_getitem_lookup l i x :
  0 <= i -> l !! Z.to_nat i = Some x -> py_getitem l i = Ok x.
Proof.
  intros Hi Hx. rewrite py_getitem_in_range.
  - now rewrite Hx.
  - apply lookup_lt_Some in Hx. unfold len. lia.
Qed.

Lemma py_setitem_in_range l i (x : A) :
  0 <= i < len l -> py_setitem l i x = Ok (<[Z.to_nat i := x]> l).
Proof. intros Hi. unfold py_setitem. now rewrite py_index_in_range. Qed.
End PyFacts.

(** ** The ring buffer *)

Section RingBufferFacts.
Context {A : Type}.
Import RingBuffer.
Implicit Types (self rb : RingBuffer.t A) (i : Z) (x d : A).

Lemma slot_of_range rb i :
  1 <= len (buffer rb) -> 0 <= slot_of rb i < len (buffer rb).
Proof. intros HC. unfold slot_of. apply Z.mod_pos_bound. lia. Qed.

Lemma slot_of_mk (b : list A) (e : Z) i :
  slot_of {| buffer := b; endIndex := e |} i = (e + 1 + i) mod len b.
Proof. reflexivity. Qed.

Lemma add_ok rb x :
  1 <= len (buffer rb) ->
  add rb x =
    ({| buffer := <[Z.to_nat (slot_of rb 0) := x]> (buffer rb);
        endIndex := slot_of rb 0 |}, Ok tt).
Proof.
  intros HC. unfold add, slot_of. rewrite Z.add_0_r.
  rewrite py_mod_ok by lia. cbn [buffer endIndex].
  rewrite py_setitem_in_range; [reflexivity|].
  apply Z.mod_pos_bound. lia.
Qed.

Lemma get_in_range rb i :
  0 <= i < len (buffer rb) ->
  get rb i = py_getitem (buffer rb) (slot_of rb i).
Proof.
  intros Hi. unfold get, slot_of.
  destruct (Z.ltb_spec i 0); [lia|].
  destruct (Z.geb_spec i (len (buffer rb))); [lia|]. cbn [orb].
  rewrite py_mod_ok by lia. cbn [rbind].
  rewrite py_mod_ok by lia. cbn [rbind].
  now rewrite Z.add_mod_idemp_l by lia.
Qed.

Lemma get_out_of_range rb i :
  i < 0 \/ len (buffer rb) <= i -> get rb i = Raise (IndexError "Out of range").
Proof.
  intros Hi. unfold get.
  destruct (Z.ltb_spec i 0); [reflexivity|].
  destruct (Z.geb_spec i (len (buffer rb))); [reflexivity|lia].
Qed.

Lemma get_succeeds rb i :
  0 <= i < len (buffer rb) -> exists x, get rb i = Ok x.
Proof.
  intros Hi. rewrite get_in_range by assumption.
  pose proof (slot_of_range rb i ltac:(lia)) as Hs.
  rewrite py_getitem_in_range by assumption.
  destruct (buffer rb !! Z.to_nat (slot_of rb i)) as [x|] eqn:E; [eauto|].
  apply lookup_ge_None in E. unfold len in Hs. lia.
Qed.

(** After [add], the newest logical index holds the item and every other
    logical index holds what its successor held. *)
Lemma get_add_last rb x :
  1 <= len (buffer rb) ->
  get (fst (add rb x)) (len (buffer rb) - 1) = Ok x.
Proof.
  intros HC. rewrite add_ok by assumption. cbn [fst].
  pose proof (slot_of_range rb 0 HC) as Hs.
  rewrite get_in_range by (simpl; rewrite len_insert; lia).
  rewrite slot_of_mk. cbn [buffer]. rewrite len_insert.
  replace (slot_of rb 0 + 1 + (len (buffer rb) - 1))
    with (slot_of rb 0 + 1 * len (buffer rb)) by lia.
  rewrite Z.mod_add by lia. rewrite Z.mod_small by lia.
  apply py_getitem_lookup; [lia|].
  apply list_lookup_insert_eq. unfold len in Hs. lia.
Qed.

Lemma get_add_shift rb x i :
  0 <= i < len (buffer rb) - 1 ->
  get (fst (add rb x)) i = get rb (i + 1).
Proof.
  intros Hi. rewrite add_ok by lia. cbn [fst].
  pose proof (slot_of_range rb 0 ltac:(lia)) as Hs.
  rewrite get_in_range by (simpl; rewrite len_insert; lia).
  rewrite (get_in_range rb) by lia.
  rewrite slot_of_mk. cbn [buffer]. rewrite len_insert.
  assert (Hslot : (slot_of rb 0 + 1 + i) mod len (buffer rb) = slot_of rb (i + 1)).
  { unfold slot_of. rewrite Z.add_0_r.
    rewrite <- Z.add_assoc, Z.add_mod_idemp_l by lia.
    f_equal. lia. }
  rewrite Hslot.
  pose proof (slot_of_range rb (i + 1) ltac:(lia)) as Hs'.
  assert (Hne : slot_of rb 0 <> slot_of rb (i + 1)).
  { unfold slot_of in *. rewrite Z.add_0_r in *.
    set (C := len (buffer rb)) in *. set (e := endIndex rb + 1) in *.
    intros Heq.
    assert (Hd : ((e + (i + 1)) - e) mod C = 0).
    { rewrite Zminus_mod. rewrite <- Heq. rewrite Z.sub_diag. apply Z.mod_0_l. lia. }
    replace (e + (i + 1) - e) with (i + 1) in Hd by lia.
    rewrite Z.mod_small in Hd by lia. lia. }
  rewrite !py_getitem_in_range by (rewrite ?len_insert; lia).
  rewrite list_lookup_insert_ne by lia. reflexivity.
Qed.

Lemma add_len rb x : len (buffer (fst (add rb x))) = len (buffer rb).
Proof.
  unfold add. destruct (py_mod _ _) as [e'|e]; [|reflexivity].
  cbn [buffer endIndex]. unfold py_setitem.
  destruct (py_index _ _); cbn [fst buffer]; [apply len_insert|reflexivity].
Qed.
End RingBufferFacts.

Section RingBufferHistory.
Context {A : Type}.
Import RingBuffer.
Implicit Types (self rb : RingBuffer.t A) (i : Z) (x d : A) (h xs : list A).

Lemma init_unfold (size : Z) d rb :
  __init__ size d = Ok rb ->
  rb = {| buffer := py_list_repeat d size; endIndex := Z.max 0 size - 1 |}.
Proof.
  unfold __init__, py_list_mul.
  destruct (_ || _); [discriminate|]. destruct (_ <? _); [discriminate|].
  cbn [rbind]. intros H. injection H as <-. now rewrite len_repeat.
Qed.

Lemma holds_init (size : Z) d rb :
  1 <= size -> __init__ size d = Ok rb -> holds rb (py_list_repeat d size).
Proof.
  intros HC Hrb. apply init_unfold in Hrb. subst rb. unfold holds.
  cbn [buffer]. rewrite len_repeat. repeat split; try lia.
  intros i Hi.
  destruct (get_succeeds {| buffer := py_list_repeat d size;
                             endIndex := Z.max 0 size - 1 |} i) as [y Hy].
  { cbn [buffer]. rewrite len_repeat. lia. }
  rewrite Hy. symmetry.
  rewrite get_in_range in Hy by (cbn [buffer]; rewrite len_repeat; lia).
  cbn [buffer] in Hy. unfold py_getitem in Hy.
  destruct (py_index _ _) as [n|]; [|discriminate].
  destruct (py_list_repeat d size !! n) as [z|] eqn:E; [|discriminate].
  injection Hy as ->. unfold py_list_repeat in E.
  apply lookup_replicate in E as [-> _].
  apply py_getitem_lookup; [lia|].
  apply lookup_replicate. split; [reflexivity|lia].
Qed.

Lemma holds_add rb h x : holds rb h -> holds (fst (add rb x)) (h ++ [x]).
Proof.
  intros (HC & Hh & Hget). unfold holds. rewrite add_len.
  assert (Hlen : len (h ++ [x]) = len h + 1).
  { unfold len. rewrite length_app. simpl. lia. }
  rewrite Hlen. repeat split; try lia.
  intros i Hi. destruct (Z.eq_dec i (len (buffer rb) - 1)) as [->|Hne].
  - rewrite get_add_last by assumption. symmetry.
    apply py_getitem_lookup; [lia|].
    replace (len h + 1 - len (buffer rb) + (len (buffer rb) - 1)) with (len h) by lia.
    unfold len. rewrite Nat2Z.id. apply list_lookup_middle. reflexivity.
  - rewrite get_add_shift by lia. rewrite Hget by lia.
    replace (len h + 1 - len (buffer rb) + i)
      with (len h - len (buffer rb) + (i + 1)) by lia.
    rewrite !py_getitem_in_range by (rewrite ?Hlen; lia).
    rewrite lookup_app_l; [reflexivity|]. unfold len in *. lia.
Qed.

Lemma holds_add_all xs : forall rb h,
  holds rb h ->
  holds (fst (add_all rb xs)) (h ++ xs) /\ snd (add_all rb xs) = Ok tt.
Proof.
  induction xs as [|x xs IH]; intros rb h Hh; cbn [add_all].
  - rewrite app_nil_r. auto.
  - pose proof (holds_add rb h x Hh) as Hh'.
    destruct Hh as (HC & _). rewrite add_ok in * by assumption.
    cbn [fst] in Hh'. specialize (IH _ _ Hh').
    now rewrite <- app_assoc in IH.
Qed.

Lemma add_all_len xs : forall rb,
  len (buffer (fst (add_all rb xs))) = len (buffer rb).
Proof.
  induction xs as [|x xs IH]; intros rb; [reflexivity|].
  cbn [add_all]. pose proof (add_len rb x) as Hl.
  destruct (add rb x) as [rb' [[]|e]]; cbn [fst] in *; [|assumption].
  now rewrite IH.
Qed.

Lemma run_calls_len (cs : list (call (A := A))) : forall rb,
  len (buffer (run_calls rb cs)) = len (buffer rb).
Proof.
  induction cs as [|c cs IH]; intros rb; [reflexivity|].
  unfold run_calls in *. cbn [foldl]. rewrite IH.
  destruct c; cbn [run_call]; [apply add_len|reflexivity|reflexivity].
Qed.

Lemma add_cursor rb x :
  1 <= len (buffer rb) ->
  endIndex (fst (add rb x)) = (endIndex rb + 1) mod len (buffer rb).
Proof.
  intros HC. rewrite add_ok by assumption. cbn [fst endIndex].
  unfold slot_of. now rewrite Z.add_0_r.
Qed.

Lemma run_calls_cursor (cs : list (call (A := A))) : forall rb,
  1 <= len (buffer rb) -> 0 <= endIndex rb < len (buffer rb) ->
  0 <= endIndex (run_calls rb cs) < len (buffer rb).
Proof.
  induction cs as [|c cs IH]; intros rb HC He; [assumption|].
  unfold run_calls in *. cbn [foldl].
  destruct c as [x| |]; cbn [run_call]; try now apply IH.
  rewrite <- (add_len rb x). apply IH.
  - now rewrite add_len.
  - rewrite add_len, add_cursor by assumption. apply Z.mod_pos_bound. lia.
Qed.
End RingBufferHistory.

Section RingBufferClaims.
Context {A : Type}.
Import RingBuffer.
Implicit Types (self rb : RingBuffer.t A) (i : Z) (x d : A) (h xs : list A).

Lemma get_after_adds (size : Z) d xs rb i :
  1 <= size -> __init__ size d = Ok rb ->
  0 <= i < size -> size - i <= len xs ->
  get (fst (add_all rb xs)) i = py_getitem xs (len xs - size + i).
Proof.
  intros HC Hrb Hi Hn.
  pose proof (holds_init size d rb HC Hrb) as Hh.
  destruct (holds_add_all xs _ _ Hh) as [(HC' & Hle & Hget) _].
  assert (Hsz : len (buffer (fst (add_all rb xs))) = size).
  { rewrite add_all_len. apply init_unfold in Hrb. subst rb.
    cbn [buffer]. rewrite len_repeat. lia. }
  rewrite Hget by lia. rewrite Hsz.
  assert (Hlen : len (py_list_repeat d size ++ xs) = size + len xs).
  { unfold len. rewrite length_app. fold (len (py_list_repeat d size)).
    rewrite Nat2Z.inj_add. fold (len (py_list_repeat d size)) (len xs).
    rewrite len_repeat. lia. }
  rewrite Hlen.
  rewrite !py_getitem_in_range by (rewrite ?Hlen; lia).
  rewrite lookup_app_r.
  - unfold py_list_repeat. rewrite length_replicate.
    replace (Z.to_nat (size + len xs - size + i) - Z.to_nat size)%nat
      with (Z.to_nat (len xs - size + i)) by lia.
    reflexivity.
  - unfold py_list_repeat. rewrite length_replicate. lia.
Qed.
End RingBufferClaims.

Section RingBufferTheorems.
Context {A : Type}.
Import RingBuffer.
Implicit Types (self rb : RingBuffer.t A) (i : Z) (x d : A) (h xs : list A).

Lemma py_list_mul_cases (size : Z) d :
  (size < - 2 ^ 63 \/ 2 ^ 63 <= size -> py_list_mul d size = Raise OverflowError) /\
  (- 2 ^ 63 <= size <= (2 ^ 63 - 1) / 8 -> py_list_mul d size = Ok (py_list_repeat d size)) /\
  ((2 ^ 63 - 1) / 8 < size < 2 ^ 63 -> py_list_mul d size = Raise MemoryError).
Proof.
  unfold py_list_mul, PY_SSIZE_T_MAX.
  destruct (Z.ltb_spec size (- (2 ^ 63 - 1) - 1));
    destruct (Z.ltb_spec (2 ^ 63 - 1) size);
    destruct (Z.ltb_spec ((2 ^ 63 - 1) / 8) size); cbn [orb];
    repeat split; intros; try reflexivity; exfalso;
    change ((2 ^ 63 - 1) / 8) with 1152921504606846975 in *; lia.
Qed.

(** C4, as amended. A capacity below [1] is no error: from [- 2 ^ 63] to
    [0] the constructor returns a buffer with no slot and cursor [-1]. The
    constructor fails only where Python refuses to build the list, with
    [OverflowError] for a capacity that is no index-sized integer and with
    [MemoryError] otherwise. For a capacity of [1] or more, a buffer it
    returns has exactly that many slots, all holding the placeholder, and
    the cursor on the last slot. *)
Theorem init_outcomes (size : Z) d :
  (- 2 ^ 63 <= size < 1 ->
   __init__ size d = Ok {| buffer := []; endIndex := -1 |}) /\
  (size < - 2 ^ 63 \/ 2 ^ 63 <= size -> __init__ size d = Raise OverflowError) /\
  (forall e, __init__ size d = Raise e -> e = OverflowError \/ e = MemoryError) /\
  (forall rb, 1 <= size -> __init__ size d = Ok rb ->
     __len__ rb = size /\ Forall (fun y => y = d) (buffer rb) /\
     endIndex rb = size - 1).
Proof.
  destruct (py_list_mul_cases size d) as (Hover & Hok & Hmem).
  split; [|split; [|split]].
  - intros Hs. unfold __init__. rewrite Hok.
    + cbn [rbind]. unfold py_list_repeat.
      now replace (Z.to_nat size) with 0%nat by lia.
    + change ((2 ^ 63 - 1) / 8) with 1152921504606846975. lia.
  - intros Hs. unfold __init__. now rewrite Hover.
  - intros e. unfold __init__, py_list_mul.
    destruct (_ || _); [intros [= <-]; now left|].
    destruct (_ <? _); [intros [= <-]; now right|]. discriminate.
  - intros rb Hs Hrb. apply init_unfold in Hrb. subst rb.
    unfold __len__. cbn [buffer endIndex]. rewrite len_repeat.
    split; [lia|]. split; [|lia].
    unfold py_list_repeat. apply Forall_forall. intros y Hy.
    now apply elem_of_replicate in Hy as [-> _].
Qed.

(** C6, as amended. After more than [size] inserts, logical index
    [size - 1] holds the most recent item and logical index [0] holds the
    item inserted [size - 1] calls before the most recent one. *)
Theorem get_newest_and_oldest (size : Z) d xs rb :
  1 <= size -> size < len xs -> __init__ size d = Ok rb ->
  exists newest oldest,
    inserted_calls_before xs 0 = Some newest /\
    get (fst (add_all rb xs)) (size - 1) = Ok newest /\
    inserted_calls_before xs (size - 1) = Some oldest /\
    get (fst (add_all rb xs)) 0 = Ok oldest.
Proof.
  intros HC Hn Hrb.
  assert (Hlook : forall k, 0 <= k < len xs -> exists y,
             xs !! Z.to_nat (len xs - 1 - k) = Some y).
  { intros k Hk. apply lookup_lt_is_Some_2. unfold len in *. lia. }
  destruct (Hlook 0 ltac:(lia)) as [newest Hnew].
  destruct (Hlook (size - 1) ltac:(lia)) as [oldest Hold].
  exists newest, oldest. unfold inserted_calls_before.
  destruct (Z.ltb_spec 0 (len xs)); [|lia].
  destruct (Z.ltb_spec (size - 1) (len xs)); [|lia].
  destruct (Z.leb_spec 0 (size - 1)); [|lia]. cbn [Z.leb andb].
  repeat split; try assumption.
  - rewrite (get_after_adds size d) by (assumption || lia).
    apply py_getitem_lookup; [lia|].
    now replace (len xs - size + (size - 1)) with (len xs - 1 - 0) by lia.
  - rewrite (get_after_adds size d) by (assumption || lia).
    apply py_getitem_lookup; [lia|].
    now replace (len xs - size + 0) with (len xs - 1 - (size - 1)) by lia.
Qed.

(** Filling a fresh buffer. Inserting exactly [size] items into a fresh
    buffer of capacity [size >= 1] succeeds and logical index [i] then
    holds the [i]-th item inserted. *)
Lemma get_after_filling (size : Z) d xs rb :
  1 <= size -> len xs = size -> __init__ size d = Ok rb ->
  snd (add_all rb xs) = Ok tt /\
  forall i, 0 <= i < size -> get (fst (add_all rb xs)) i = py_getitem xs i.
Proof.
  intros HC Hn Hrb. split.
  - now destruct (holds_add_all xs _ _ (holds_init size d rb HC Hrb)).
  - intros i Hi. rewrite (get_after_adds size d) by (assumption || lia).
    f_equal. lia.
Qed.

(** C8. Whatever was inserted and read before, [get] raises [IndexError]
    for every index below [0] or at least the capacity, and returns an item
    for every index in between. *)
Theorem get_range_check (size : Z) d (cs : list call) rb index :
  __init__ size d = Ok rb ->
  (index < 0 \/ size <= index ->
     get (run_calls rb cs) index = Raise (IndexError "Out of range")) /\
  (0 <= index < size -> exists x, get (run_calls rb cs) index = Ok x).
Proof.
  intros Hrb. apply init_unfold in Hrb.
  assert (Hlen : len (buffer (run_calls rb cs)) = Z.max 0 size).
  { rewrite run_calls_len. subst rb. cbn [buffer]. apply len_repeat. }
  split; intros Hi.
  - apply get_out_of_range. lia.
  - apply get_succeeds. lia.
Qed.

Lemma storage_and_cursor_facts (size : Z) d (cs : list call) rb :
  1 <= size -> __init__ size d = Ok rb ->
  len (buffer (run_calls rb cs)) = size /\
  0 <= endIndex (run_calls rb cs) < size.
Proof.
  intros HC Hrb. apply init_unfold in Hrb.
  assert (Hl0 : len (buffer rb) = size).
  { subst rb. cbn [buffer]. rewrite len_repeat. lia. }
  split; [now rewrite run_calls_len|].
  rewrite <- Hl0. apply run_calls_cursor; subst rb; cbn [buffer endIndex] in *; lia.
Qed.

(** C9. In a buffer built with capacity [size >= 1] the cursor starts at
    [size - 1]; after any calls of [add], [get] and [len] the storage still
    has [size] slots and the cursor lies in [[0, size)]; and [add] moves
    the cursor by one modulo [size]. *)
Theorem storage_and_cursor_invariant (size : Z) d (cs : list call) rb :
  1 <= size -> __init__ size d = Ok rb ->
  endIndex rb = size - 1 /\
  len (buffer (run_calls rb cs)) = size /\
  __len__ (run_calls rb cs) = size /\
  0 <= endIndex (run_calls rb cs) < size /\
  forall x, endIndex (fst (add (run_calls rb cs) x))
            = (endIndex (run_calls rb cs) + 1) mod size.
Proof.
  intros HC Hrb. apply init_unfold in Hrb.
  assert (Hl0 : len (buffer rb) = size).
  { subst rb. cbn [buffer]. rewrite len_repeat. lia. }
  assert (He0 : endIndex rb = size - 1) by (subst rb; cbn [endIndex]; lia).
  assert (Hl : len (buffer (run_calls rb cs)) = size) by now rewrite run_calls_len.
  assert (Hc : 0 <= endIndex (run_calls rb cs) < len (buffer rb))
    by (apply run_calls_cursor; lia).
  split; [assumption|]. split; [assumption|]. split; [assumption|].
  split; [lia|].
  intros x. rewrite add_cursor by lia. now rewrite Hl.
Qed.

(** C10. With capacity [0] the constructor returns an empty storage with
    cursor [-1] and the first [add] raises [ZeroDivisionError]; with
    capacity at least [1], [add] returns normally in every state the
    buffer can reach. *)
Theorem add_fails_only_on_empty_storage d x :
  __init__ 0 d = Ok {| buffer := []; endIndex := -1 |} /\
  add {| buffer := []; endIndex := -1 |} x
    = ({| buffer := []; endIndex := -1 |}, Raise ZeroDivisionError) /\
  forall (size : Z) (cs : list call) rb,
    1 <= size -> __init__ size d = Ok rb ->
    snd (add (run_calls rb cs) x) = Ok tt.
Proof.
  repeat split.
  intros size cs rb HC Hrb.
  destruct (storage_and_cursor_facts size d cs rb HC Hrb) as [Hl _].
  rewrite add_ok by lia. reflexivity.
Qed.
End RingBufferTheorems.

(** ** The clipper *)

Section ClipperFacts.
Context {Frame : Type}.
Import Clipper.
Implicit Types (self : Clipper.t Frame) (env : Clipper.Env Frame).

Lemma write_frames_thread env file indices : forall self,
  _thread (state_of (write_frames env file indices self)) = _thread self.
Proof.
  induction indices as [|i rest IH]; intros self; cbn [write_frames]; [reflexivity|].
  destruct (RingBuffer.get _ i) as [frame|e]; [|reflexivity].
  destruct (write_raises env frame); [reflexivity|]. now rewrite IH.
Qed.

Lemma _save_clip_thread env self length_ms file :
  _thread (state_of (_save_clip env self length_ms file)) = _thread self.
Proof.
  unfold _save_clip. destruct (num_frames self length_ms) as [n|e]; [|reflexivity].
  destruct (VideoWriter_raises env file); [reflexivity|].
  match goal with |- context [write_frames ?e ?f ?l ?s] =>
    pose proof (write_frames_thread e f l s) as H;
    destruct (write_frames e f l s) as [[] s2|ex s2|s2] end;
    cbn [state_of] in *; try assumption.
  destruct (String.eqb _ _); cbn; assumption.
Qed.

Lemma handle_message_thread env self :
  _thread (state_of (handle_message env self)) = _thread self.
Proof.
  unfold handle_message. destruct (_msg_queue self) as [|[l f| |k] rest]; try reflexivity.
  pose proof (_save_clip_thread env (set_msg_queue self rest) l f) as H.
  destruct (_save_clip _ _ _ _) as [[] s2|ex s2|s2]; cbn [state_of] in *; assumption.
Qed.

Lemma except_Empty_state (o : outcome Frame LoopStep) :
  state_of (except_Empty o) = state_of o.
Proof. destruct o as [a s|e s|s]; try reflexivity. now destruct e. Qed.

Lemma iteration_thread env self :
  _thread (state_of (iteration env self)) = _thread self.
Proof.
  unfold iteration. destruct (read _) as [[vc [[|] frame]]|]; try reflexivity.
  cbn [negb]. destruct (RingBuffer.add _ _) as [fb [[]|e]]; [|reflexivity].
  rewrite except_Empty_state. now rewrite handle_message_thread.
Qed.

Lemma _start_thread env fuel : forall self,
  _thread (state_of (_start env fuel self)) = _thread self.
Proof.
  induction fuel as [|fuel IH]; intros self; cbn [_start]; [reflexivity|].
  pose proof (iteration_thread env self) as H.
  destruct (iteration env self) as [[|] s|e s|s]; cbn [state_of] in *; try assumption.
  now rewrite IH.
Qed.

Lemma thread_passes_active env passes self :
  is_active (thread_passes env passes self) = is_active self.
Proof.
  unfold thread_passes, is_active.
  destruct (_thread self) as [[| |e]|] eqn:E; rewrite ?E; try reflexivity.
  pose proof (_start_thread env passes self) as H. rewrite E in H.
  destruct (_start env passes self) as [[] s|ex s|s]; cbn in *; try reflexivity.
  now rewrite H.
Qed.

(** A thread that has been started is never waited for in vain once it has
    ended, and [join] leaves it ended. *)
Lemma thread_passes_ended env passes self :
  _thread self <> Some Running -> thread_passes env passes self = self.
Proof.
  unfold thread_passes. destruct (_thread self) as [[| |e]|]; congruence.
Qed.

Lemma join_active env self : is_active (state_of (join env self)) = is_active self.
Proof.
  unfold join, run_thread.
  match goal with |- context [thread_passes ?e ?n ?s] =>
    pose proof (thread_passes_active e n s) as H;
    destruct (_thread (thread_passes e n s)) as [[| |ex]|] eqn:E end;
    cbn [state_of]; rewrite H; reflexivity.
Qed.

Lemma stop_active env self : is_active (state_of (stop env self)) = is_active self.
Proof.
  unfold stop. destruct (is_active self) eqn:E; cbn [negb]; [|assumption].
  pose proof (join_active env (set_msg_queue self (_msg_queue self ++ [StopMessage]))) as H.
  destruct (join _ _) as [[] s|ex s|s]; cbn [state_of] in *;
    [change (is_active (release s)) with (is_active s)| |]; rewrite H; exact E.
Qed.

Lemma clip_active self length_ms file_name :
  is_active (state_of (clip self length_ms file_name)) = is_active self.
Proof. unfold clip. destruct (is_active self) eqn:E; cbn [negb state_of]; exact E. Qed.

Lemma run_calls_active env (cs : list Clipper.call) : forall self,
  is_active (run_calls env self cs) = is_active self.
Proof.
  induction cs as [|c cs IH]; intros self; [reflexivity|].
  unfold run_calls in *. cbn [foldl]. rewrite IH.
  destruct c; cbn [run_call];
    auto using clip_active, stop_active, thread_passes_active.
Qed.

Lemma init_active (vc : VideoCapture Frame) (buffer_size estimated_fps : Z) self :
  __init__ vc buffer_size estimated_fps = Ok self -> is_active self = true.
Proof.
  unfold __init__.
  destruct (RingBuffer.__init__ buffer_size _) as [fb|]; [|discriminate]. cbn [rbind].
  destruct (int_truediv 1 estimated_fps); [|discriminate]. cbn [rbind].
  destruct (float_of_int 1000); [|discriminate]. cbn [rbind].
  now intros [= <-].
Qed.
End ClipperFacts.

Section ClipperLifecycle.
Context {Frame : Type}.
Import Clipper.
Implicit Types (self : Clipper.t Frame) (env : Clipper.Env Frame).

Lemma join_returns_ended env self self1 :
  join env self = Returned tt self1 -> _thread self1 <> Some Running.
Proof.
  unfold join. destruct (_thread (run_thread env _)) as [[| |e]|] eqn:E;
    intros [= <-]; rewrite E; discriminate.
Qed.

Lemma stop_returns_ended env self self1 :
  is_active self = true -> stop env self = Returned tt self1 ->
  is_active self1 = true /\ _thread self1 <> Some Running.
Proof.
  intros Hact Hstop. split.
  - pose proof (stop_active env self) as H. rewrite Hstop in H. cbn in H. congruence.
  - unfold stop in Hstop. rewrite Hact in Hstop. cbn [negb] in Hstop.
    destruct (join _ _) as [[] s|ex s|s] eqn:Hj; try discriminate.
    injection Hstop as <-. apply join_returns_ended in Hj. exact Hj.
Qed.

(** C1, what the code does. [stop] never clears [_thread], so a Clipper
    that was active is still active when [stop] has returned, and the next
    [clip] returns normally with its message put on the queue. *)
Theorem clip_after_stop_is_queued env self self1 length_ms file_name :
  is_active self = true -> stop env self = Returned tt self1 ->
  is_active self1 = true /\
  clip self1 length_ms file_name
    = Returned tt (set_msg_queue self1
                     (_msg_queue self1 ++ [ClipMessage length_ms file_name])).
Proof.
  intros Hact Hstop.
  destruct (stop_returns_ended env self self1 Hact Hstop) as [H1 _].
  split; [assumption|]. unfold clip. now rewrite H1.
Qed.

(** C2, what the code does. A second [stop] returns without an exception,
    but it is no no-op: it puts another stop message on the queue, joins the
    ended thread and releases the capture again, and the Clipper is still
    active afterwards. *)
Theorem second_stop_repeats_the_work env self self1 :
  is_active self = true -> stop env self = Returned tt self1 ->
  exists self2,
    stop env self1 = Returned tt self2 /\
    _msg_queue self2 = _msg_queue self1 ++ [StopMessage] /\
    events self2 = events self1 ++ [ThreadJoin; CaptureRelease] /\
    released (_video_capture self2) = S (released (_video_capture self1)) /\
    is_active self2 = true.
Proof.
  intros Hact Hstop.
  destruct (stop_returns_ended env self self1 Hact Hstop) as [H1 Hend].
  unfold stop. rewrite H1. cbn [negb]. unfold join, run_thread.
  rewrite thread_passes_ended by exact Hend.
  cbn [emit emits set_msg_queue _thread].
  unfold is_active in H1.
  destruct (_thread self1) as [[| |e]|] eqn:E; try congruence; try discriminate.
  all: eexists; split; [reflexivity|]; cbn; rewrite <- app_assoc.
  all: unfold is_active; cbn; rewrite E; auto.
Qed.
End ClipperLifecycle.

Section ClipperLoop.
Context {Frame : Type}.
Import Clipper.
Implicit Types (self : Clipper.t Frame) (env : Clipper.Env Frame).

Lemma handle_message_raised env self e self' :
  handle_message env self = Raised e self' ->
  (_msg_queue self = [] /\ e = Empty /\ self' = self) \/
  (exists kind rest, _msg_queue self = OtherMessage kind :: rest /\
     e = Exception "Unknown message type") \/
  (exists length_ms file_name rest,
     _msg_queue self = ClipMessage length_ms file_name :: rest /\
     _save_clip env (set_msg_queue self rest) length_ms file_name = Raised e self').
Proof.
  unfold handle_message. destruct (_msg_queue self) as [|[l f| |k] rest].
  - intros [= <- <-]. now left.
  - destruct (_save_clip env _ l f) as [[] s2|ex s2|s2] eqn:Hs; try discriminate.
    intros [= <- <-]. right. right. now exists l, f, rest.
  - discriminate.
  - intros [= <- <-]. right. left. now exists k, rest.
Qed.

End ClipperLoop.

Section ClipperSave.
Context {Frame : Type}.
Import Clipper.
Implicit Types (self : Clipper.t Frame) (env : Clipper.Env Frame).


Lemma emits_nil self : emits self [] = self.
Proof. destruct self. unfold emits. cbn. now rewrite app_nil_r. Qed.

Lemma emits_emits self (evs1 evs2 : list (Event Frame)) :
  emits (emits self evs1) evs2 = emits self (evs1 ++ evs2).
Proof. unfold emits. cbn. now rewrite app_assoc. Qed.


End ClipperSave.

(** C7. Inserting exactly [size] items into a fresh buffer of capacity
    [size >= 1] gives [get i = x_i] for every [i] in [[0, size)]; and a
    buffer of capacity 4 filled with ["P"] shows [P, A, B, C] after the
    inserts [A, B, C] and [A, B, C, D] after the insert [D]. *)
Theorem insert_get_round_trip :
  (forall (A : Type) (size : Z) (d : A) (xs : list A) (rb : RingBuffer.t A),
     1 <= size -> len xs = size -> RingBuffer.__init__ size d = Ok rb ->
     snd (RingBuffer.add_all rb xs) = Ok tt /\
     forall i, 0 <= i < size ->
       RingBuffer.get (fst (RingBuffer.add_all rb xs)) i = py_getitem xs i) /\
  (exists rb : RingBuffer.t string,
     RingBuffer.__init__ 4 "P" = Ok rb /\
     let rb3 := fst (RingBuffer.add_all rb ["A"; "B"; "C"]) in
     map (RingBuffer.get rb3) [0; 1; 2; 3] = [Ok "P"; Ok "A"; Ok "B"; Ok "C"] /\
     RingBuffer.add rb3 "D" = (fst (RingBuffer.add rb3 "D"), Ok tt) /\
     map (RingBuffer.get (fst (RingBuffer.add rb3 "D"))) [0; 1; 2; 3]
     = [Ok "A"; Ok "B"; Ok "C"; Ok "D"]).
Proof.
  split.
  - intros A size d xs rb. apply get_after_filling.
  - eexists. split; [reflexivity|]. repeat split.
Qed.

(** ** Concrete runs *)

Lemma init_outcomes_witness :
  RingBuffer.__init__ (-3) "P"
    = Ok {| RingBuffer.buffer := []; RingBuffer.endIndex := -1 |} /\
  RingBuffer.__init__ (2 ^ 63) "P" = Raise OverflowError /\
  (RingBuffer.__len__ {| RingBuffer.buffer := ["P"; "P"; "P"; "P"];
                         RingBuffer.endIndex := 3 |} = 4 /\
   Forall (fun y => y = "P") ["P"; "P"; "P"; "P"] /\ 3 = 4 - 1).
Proof.
  split; [|split].
  - apply (proj1 (init_outcomes (-3) "P")). lia.
  - apply (proj1 (proj2 (init_outcomes (2 ^ 63) "P"))). lia.
  - apply (proj2 (proj2 (proj2 (init_outcomes 4 "P")))
             {| RingBuffer.buffer := ["P"; "P"; "P"; "P"]; RingBuffer.endIndex := 3 |});
      [lia | reflexivity].
Defined.

(** C4 as stated fails: capacities [0] and [-3] are below [1] and the
    constructor returns a buffer. *)
Lemma init_below_one_succeeds :
  RingBuffer.__init__ 0 "P" = Ok {| RingBuffer.buffer := []; RingBuffer.endIndex := -1 |} /\
  RingBuffer.__init__ (-3) "P" = Ok {| RingBuffer.buffer := []; RingBuffer.endIndex := -1 |}.
Proof. split; reflexivity. Qed.

Lemma get_newest_and_oldest_witness :
  exists newest oldest,
    inserted_calls_before ["A"; "B"; "C"; "D"; "E"] 0 = Some newest /\
    RingBuffer.get (fst (RingBuffer.add_all
      {| RingBuffer.buffer := ["P"; "P"; "P"; "P"]; RingBuffer.endIndex := 3 |}
      ["A"; "B"; "C"; "D"; "E"])) (4 - 1) = Ok newest /\
    inserted_calls_before ["A"; "B"; "C"; "D"; "E"] (4 - 1) = Some oldest /\
    RingBuffer.get (fst (RingBuffer.add_all
      {| RingBuffer.buffer := ["P"; "P"; "P"; "P"]; RingBuffer.endIndex := 3 |}
      ["A"; "B"; "C"; "D"; "E"])) 0 = Ok oldest.
Proof.
  apply (get_newest_and_oldest 4 "P" ["A"; "B"; "C"; "D"; "E"]
           {| RingBuffer.buffer := ["P"; "P"; "P"; "P"]; RingBuffer.endIndex := 3 |});
    [lia | reflexivity | reflexivity].
Defined.

(** C6 as stated fails: with capacity 4 and the five inserts A to E, index
    0 holds B, while the item inserted 4 calls before the most recent one
    is A. *)
Lemma oldest_is_not_capacity_calls_back :
  exists rb : RingBuffer.t string,
    RingBuffer.__init__ 4 "P" = Ok rb /\
    4 < len ["A"; "B"; "C"; "D"; "E"] /\
    inserted_calls_before ["A"; "B"; "C"; "D"; "E"] 4 = Some "A" /\
    RingBuffer.get (fst (RingBuffer.add_all rb ["A"; "B"; "C"; "D"; "E"])) 0 = Ok "B" /\
    RingBuffer.get (fst (RingBuffer.add_all rb ["A"; "B"; "C"; "D"; "E"])) 0 <> Ok "A".
Proof.
  eexists. split; [reflexivity|]. repeat split. discriminate.
Qed.

Lemma insert_get_round_trip_witness :
  snd (RingBuffer.add_all
         {| RingBuffer.buffer := ["P"; "P"]; RingBuffer.endIndex := 1 |} ["A"; "B"])
    = Ok tt /\
  forall i, 0 <= i < 2 ->
    RingBuffer.get (fst (RingBuffer.add_all
         {| RingBuffer.buffer := ["P"; "P"]; RingBuffer.endIndex := 1 |} ["A"; "B"])) i
    = py_getitem ["A"; "B"] i.
Proof.
  apply (proj1 insert_get_round_trip string 2 "P" ["A"; "B"]
           {| RingBuffer.buffer := ["P"; "P"]; RingBuffer.endIndex := 1 |});
    [lia | reflexivity | reflexivity].
Defined.

Lemma get_range_check_witness :
  RingBuffer.get (RingBuffer.run_calls
    {| RingBuffer.buffer := ["P"; "P"]; RingBuffer.endIndex := 1 |}
    [RingBuffer.CallAdd "A"; RingBuffer.CallGet 5]) 2 = Raise (IndexError "Out of range") /\
  exists x, RingBuffer.get (RingBuffer.run_calls
    {| RingBuffer.buffer := ["P"; "P"]; RingBuffer.endIndex := 1 |}
    [RingBuffer.CallAdd "A"; RingBuffer.CallGet 5]) 1 = Ok x.
Proof.
  split.
  - apply (get_range_check 2 "P" [RingBuffer.CallAdd "A"; RingBuffer.CallGet 5]
             {| RingBuffer.buffer := ["P"; "P"]; RingBuffer.endIndex := 1 |} 2);
      [reflexivity | lia].
  - apply (get_range_check 2 "P" [RingBuffer.CallAdd "A"; RingBuffer.CallGet 5]
             {| RingBuffer.buffer := ["P"; "P"]; RingBuffer.endIndex := 1 |} 1);
      [reflexivity | lia].
Defined.

Lemma storage_and_cursor_invariant_witness :
  let rb := {| RingBuffer.buffer := ["P"; "P"; "P"]; RingBuffer.endIndex := 2 |} in
  let cs := [RingBuffer.CallAdd "A"; RingBuffer.CallGet 7; RingBuffer.CallAdd "B"] in
  RingBuffer.endIndex rb = 3 - 1 /\
  len (RingBuffer.buffer (RingBuffer.run_calls rb cs)) = 3 /\
  RingBuffer.__len__ (RingBuffer.run_calls rb cs) = 3 /\
  0 <= RingBuffer.endIndex (RingBuffer.run_calls rb cs) < 3 /\
  forall x, RingBuffer.endIndex (fst (RingBuffer.add (RingBuffer.run_calls rb cs) x))
            = (RingBuffer.endIndex (RingBuffer.run_calls rb cs) + 1) mod 3.
Proof.
  apply (storage_and_cursor_invariant 3 "P"); [lia | reflexivity].
Defined.

Lemma add_fails_only_on_empty_storage_witness :
  snd (RingBuffer.add (RingBuffer.run_calls
         {| RingBuffer.buffer := ["P"; "P"]; RingBuffer.endIndex := 1 |}
         [RingBuffer.CallAdd "A"; RingBuffer.CallAdd "B"; RingBuffer.CallAdd "C"]) "D")
  = Ok tt.
Proof.
  apply (proj2 (proj2 (add_fails_only_on_empty_storage "P" "D")) 2);
    [lia | reflexivity].
Defined.

Section ClipperRuns.
Import Clipper Sample.

Lemma sample_clippers_are_constructed :
  __init__ capture 2 30 = Ok (clipper capture 2 30 ms_per_frame_30) /\
  __init__ capture 4 30 = Ok (clipper capture 4 30 ms_per_frame_30) /\
  __init__ flaky_capture 4 30 = Ok (clipper flaky_capture 4 30 ms_per_frame_30) /\
  __init__ capture 60 13 = Ok (clipper capture 60 13 ms_per_frame_13).
Proof. repeat split; vm_compute; reflexivity. Qed.

(** [Clipper(cap, 2)], then [stop()], then [clip(2000, "x.mp4")]: [stop]
    returns, and [clip] returns too with its message queued. *)
Lemma clip_after_stop_is_queued_witness :
  let self := clipper capture 2 30 ms_per_frame_30 in
  let self1 := state_of (stop quiet_env self) in
  is_active self = true /\ stop quiet_env self = Returned tt self1 /\
  is_active self1 = true /\
  clip self1 2000 "x.mp4"
  = Returned tt (set_msg_queue self1 (_msg_queue self1 ++ [ClipMessage 2000 "x.mp4"])).
Proof.
  split; [reflexivity|]. split; [vm_compute; reflexivity|].
  apply (clip_after_stop_is_queued quiet_env (clipper capture 2 30 ms_per_frame_30));
    vm_compute; reflexivity.
Defined.

Lemma second_stop_repeats_the_work_witness :
  let self := clipper capture 2 30 ms_per_frame_30 in
  let self1 := state_of (stop quiet_env self) in
  is_active self = true /\ stop quiet_env self = Returned tt self1 /\
  exists self2,
    stop quiet_env self1 = Returned tt self2 /\
    _msg_queue self2 = _msg_queue self1 ++ [StopMessage] /\
    events self2 = events self1 ++ [ThreadJoin; CaptureRelease] /\
    released (_video_capture self2) = S (released (_video_capture self1)) /\
    is_active self2 = true.
Proof.
  split; [reflexivity|]. split; [vm_compute; reflexivity|].
  apply (second_stop_repeats_the_work quiet_env (clipper capture 2 30 ms_per_frame_30));
    vm_compute; reflexivity.
Defined.

End ClipperRuns.

(** * Further properties of the code *)

(** ** ringbuffer.py *)

Section RingBufferMore.
Context {A : Type}.
Import RingBuffer.
Implicit Types (self rb : RingBuffer.t A) (i : Z) (x d : A) (h xs : list A).

(** [add] shifts the logical window by one, in any state with at least one
    slot and whatever the cursor is: the item becomes the newest entry and
    every other logical index takes over its successor's entry. *)
Theorem add_shifts_window rb x :
  1 <= len (buffer rb) ->
  snd (add rb x) = Ok tt /\
  get (fst (add rb x)) (len (buffer rb) - 1) = Ok x /\
  forall i, 0 <= i < len (buffer rb) - 1 -> get (fst (add rb x)) i = get rb (i + 1).
Proof.
  intros HC. split; [now rewrite add_ok|]. split.
  - now apply get_add_last.
  - intros i Hi. now apply get_add_shift.
Qed.

Lemma get_shows_recent_history_aux (size : Z) d xs rb i :
  1 <= size -> __init__ size d = Ok rb -> 0 <= i < size ->
  snd (add_all rb xs) = Ok tt /\
  get (fst (add_all rb xs)) i = py_getitem (py_list_repeat d size ++ xs) (len xs + i).
Proof.
  intros HC Hrb Hi.
  destruct (holds_add_all xs _ _ (holds_init size d rb HC Hrb)) as [(_ & _ & Hget) Hok].
  split; [exact Hok|].
  assert (Hsz : len (buffer (fst (add_all rb xs))) = size).
  { rewrite add_all_len. apply init_unfold in Hrb. subst rb.
    cbn [buffer]. rewrite len_repeat. lia. }
  rewrite Hget by lia. rewrite Hsz. f_equal.
  unfold len. rewrite length_app.
  unfold py_list_repeat. rewrite length_replicate. lia.
Qed.

(** After any number of inserts into a fresh buffer, logical index [i]
    shows entry [len xs + i] of the placeholders followed by the inserted
    items: placeholders stay visible until [size] items have come. *)
Theorem get_shows_recent_history (size : Z) d xs rb i :
  1 <= size -> __init__ size d = Ok rb -> 0 <= i < size ->
  snd (add_all rb xs) = Ok tt /\
  get (fst (add_all rb xs)) i = py_getitem (py_list_repeat d size ++ xs) (len xs + i).
Proof. apply get_shows_recent_history_aux. Qed.

(** A buffer built with a capacity below [1] has no slot and stays that
    way: every [add] raises [ZeroDivisionError] and changes nothing, every
    [get] raises [IndexError], and [len] is [0]. *)
Theorem empty_buffer_is_unusable (size : Z) d (cs : list call) rb :
  size < 1 -> __init__ size d = Ok rb ->
  run_calls rb cs = rb /\
  __len__ rb = 0 /\
  (forall x, add rb x = (rb, Raise ZeroDivisionError)) /\
  (forall i, get rb i = Raise (IndexError "Out of range")).
Proof.
  intros Hs Hrb. apply init_unfold in Hrb.
  assert (Hb : buffer rb = []).
  { subst rb. cbn [buffer]. unfold py_list_repeat.
    now replace (Z.to_nat size) with 0%nat by lia. }
  assert (Hadd : forall x, add rb x = (rb, Raise ZeroDivisionError)).
  { intros x. unfold add. now rewrite Hb. }
  split; [|split; [|split]].
  - induction cs as [|c cs IH]; [reflexivity|].
    unfold run_calls in *. cbn [foldl].
    destruct c as [x| |]; cbn [run_call]; [rewrite Hadd|..]; exact IH.
  - unfold __len__. now rewrite Hb.
  - exact Hadd.
  - intros i. apply get_out_of_range. rewrite Hb. change (len (@nil A)) with 0. lia.
Qed.

Lemma add_all_cursor xs : forall rb,
  1 <= len (buffer rb) -> 0 <= endIndex rb < len (buffer rb) ->
  endIndex (fst (add_all rb xs)) = (endIndex rb + len xs) mod len (buffer rb).
Proof.
  induction xs as [|x xs IH]; intros rb HC He.
  - cbn [add_all fst]. unfold len at 1. cbn [length]. rewrite Z.add_0_r.
    now rewrite Z.mod_small.
  - cbn [add_all]. pose proof (add_cursor rb x HC) as Hc.
    pose proof (add_len rb x) as Hl. rewrite add_ok in * by assumption.
    cbn [fst] in Hc, Hl. rewrite IH.
    + rewrite Hl, Hc. rewrite Z.add_mod_idemp_l by lia. f_equal.
      unfold len. cbn [length]. lia.
    + now rewrite Hl.
    + rewrite Hl, Hc. apply Z.mod_pos_bound. lia.
Qed.

(** The cursor after [n] inserts into a fresh buffer is [(size - 1 + n) mod
    size]: it is back where it started after every [size] inserts, and the
    slot under it holds the newest item. *)
Theorem cursor_after_inserts (size : Z) d xs x rb :
  1 <= size -> __init__ size d = Ok rb ->
  endIndex (fst (add_all rb xs)) = (size - 1 + len xs) mod size /\
  py_getitem (buffer (fst (add_all rb (xs ++ [x]))))
             (endIndex (fst (add_all rb (xs ++ [x])))) = Ok x.
Proof.
  intros HC Hrb. pose proof (init_unfold size d rb Hrb) as Hu.
  assert (Hl : len (buffer rb) = size).
  { subst rb. cbn [buffer]. rewrite len_repeat. lia. }
  assert (He : endIndex rb = size - 1) by (subst rb; cbn [endIndex]; lia).
  split.
  - rewrite add_all_cursor by lia. now rewrite Hl, He.
  - destruct (get_shows_recent_history_aux size d (xs ++ [x]) rb (size - 1) HC Hrb
                ltac:(lia)) as [Hlen Hget].
    pose proof (add_all_cursor (xs ++ [x]) rb ltac:(lia) ltac:(lia)) as Hc.
    set (rb' := fst (add_all rb (xs ++ [x]))) in *.
    assert (Hl' : len (buffer rb') = size) by (unfold rb'; now rewrite add_all_len).
    rewrite get_in_range in Hget by lia.
    unfold slot_of in Hget. rewrite Hl' in Hget.
    replace ((endIndex rb' + 1 + (size - 1)) mod size) with (endIndex rb') in Hget.
    + rewrite Hget. apply py_getitem_lookup; [pose proof (len_nonneg (xs ++ [x])); lia|].
      replace (Z.to_nat (len (xs ++ [x]) + (size - 1)))
        with (length (py_list_repeat d size ++ xs)).
      * rewrite app_assoc. apply list_lookup_middle. reflexivity.
      * rewrite length_app. unfold py_list_repeat. rewrite length_replicate.
        unfold len. rewrite length_app. cbn [length]. lia.
    + replace (endIndex rb' + 1 + (size - 1)) with (endIndex rb' + 1 * size) by lia.
      rewrite Z.mod_add by lia. rewrite Z.mod_small; [reflexivity|].
      rewrite Hc, Hl. apply Z.mod_pos_bound. lia.
Qed.
End RingBufferMore.

(** ** clip.py *)

Section ClipperMore.
Context {Frame : Type}.
Import Clipper.
Implicit Types (self : Clipper.t Frame) (env : Clipper.Env Frame).

(** *** What a clip save can change and how it can fail *)

Lemma write_frames_emits env file (indices : list Z) : forall self,
  exists evs, state_of (write_frames env file indices self) = emits self evs.
Proof.
  induction indices as [|i rest IH]; intros self; cbn [write_frames].
  - exists []. cbn. now rewrite emits_nil.
  - destruct (RingBuffer.get _ i) as [frame|e];
      [|exists []; cbn; now rewrite emits_nil].
    destruct (write_raises env frame); [exists []; cbn; now rewrite emits_nil|].
    destruct (IH (emit self (WriterWrite file frame))) as [evs Hevs].
    rewrite Hevs. unfold emit. rewrite emits_emits. eauto.
Qed.

Lemma _save_clip_emits env self length_ms file :
  exists evs, state_of (_save_clip env self length_ms file) = emits self evs.
Proof.
  unfold _save_clip.
  destruct (num_frames self length_ms) as [n|e]; [|exists []; cbn; now rewrite emits_nil].
  destruct (VideoWriter_raises env file); [exists []; cbn; now rewrite emits_nil|].
  match goal with |- context [write_frames ?e ?f ?l ?s] =>
    destruct (write_frames_emits e f l s) as [evs Hevs];
    destruct (write_frames e f l s) as [[] s2|ex s2|s2] end;
    cbn [state_of] in *; subst; unfold emit; rewrite ?emits_emits; eauto.
  destruct (String.eqb _ _); rewrite ?emits_emits; eauto.
Qed.

Lemma write_frames_raised env file (indices : list Z) : forall self e self',
  Forall (fun i => 0 <= i < RingBuffer.__len__ (_frame_buffer self)) indices ->
  write_frames env file indices self = Raised e self' -> e = CvError.
Proof.
  induction indices as [|i rest IH]; intros self e self' Hin; cbn [write_frames].
  - discriminate.
  - apply Forall_cons in Hin as [Hi Hrest].
    destruct (get_succeeds (_frame_buffer self) i Hi) as [frame ->].
    destruct (write_raises env frame); [now intros [= <- _]|].
    apply IH. exact Hrest.
Qed.

Lemma num_frames_le self length_ms n :
  num_frames self length_ms = Ok n -> n <= RingBuffer.__len__ (_frame_buffer self).
Proof.
  unfold num_frames.
  destruct (float_of_int length_ms) as [l|]; [|discriminate]. cbn [rbind].
  destruct (float_truediv l _) as [q|]; [|discriminate]. cbn [rbind].
  destruct (py_round q) as [r|]; [|discriminate]. cbn [rbind].
  intros [= <-]. lia.
Qed.


(** *** The passes of the worker *)

Lemma handle_message_emits env self :
  exists evs q,
    state_of (handle_message env self) = emits (set_msg_queue self q) evs /\
    (q = _msg_queue self \/ exists m, _msg_queue self = m :: q).
Proof.
  unfold handle_message. destruct (_msg_queue self) as [|m rest] eqn:Hq.
  - exists [], []. cbn [state_of]. split; [|now left].
    rewrite emits_nil. destruct self; cbn in *; now subst.
  - destruct m as [l f| |k].
    + destruct (_save_clip_emits env (set_msg_queue self rest) l f) as [evs Hevs].
      exists evs, rest. split; [|right; eauto].
      destruct (_save_clip env _ l f) as [[] s2|ex s2|s2]; cbn [state_of] in *; exact Hevs.
    + exists [], rest. cbn [state_of]. rewrite emits_nil. split; [reflexivity|right; eauto].
    + exists [], rest. cbn [state_of]. rewrite emits_nil. split; [reflexivity|right; eauto].
Qed.

Lemma write_frames_not_blocked env file (indices : list Z) : forall self self',
  write_frames env file indices self <> Blocked self'.
Proof.
  induction indices as [|i rest IH]; intros self self'; cbn [write_frames];
    [discriminate|].
  destruct (RingBuffer.get _ i) as [frame|e]; [|discriminate].
  destruct (write_raises env frame); [discriminate|]. apply IH.
Qed.

Lemma _save_clip_not_blocked env self length_ms file self' :
  _save_clip env self length_ms file <> Blocked self'.
Proof.
  unfold _save_clip. destruct (num_frames self length_ms); [|discriminate].
  destruct (VideoWriter_raises env file); [discriminate|].
  match goal with |- context [write_frames ?e ?f ?l ?s] =>
    pose proof (write_frames_not_blocked e f l s) as Hnb;
    destruct (write_frames e f l s) as [[] s2|ex s2|s2] end; try discriminate.
  now specialize (Hnb s2).
Qed.

Lemma handle_message_not_blocked env self self' :
  handle_message env self <> Blocked self'.
Proof.
  unfold handle_message. destruct (_msg_queue self) as [|[l f| |k] rest]; try discriminate.
  pose proof (_save_clip_not_blocked env (set_msg_queue self rest) l f) as Hnb.
  destruct (_save_clip env _ l f) as [[] s2|ex s2|s2]; try discriminate.
  now specialize (Hnb s2).
Qed.

Lemma read_some (vc vc' : VideoCapture Frame) ret (frame : PyFrame) :
  read vc = Some (vc', (ret, frame)) ->
  exists answer, pending vc = answer :: pending vc'.
Proof.
  unfold read. destruct (pending vc) as [|answer later]; [discriminate|].
  intros [= <- _]. now exists answer.
Qed.

(** A pass takes exactly one answer of the camera, unless there is none: then
    it waits. *)
Lemma iteration_pending env self :
  match iteration env self with
  | Blocked self' => self' = self /\ pending (_video_capture self) = []
  | o => exists answer,
      pending (_video_capture self) = answer :: pending (_video_capture (state_of o))
  end.
Proof.
  unfold iteration. destruct (read (_video_capture self)) as [[vc [ret frame]]|] eqn:Hread.
  - apply read_some in Hread as [answer Hp].
    destruct ret; cbn [negb]; [|exists answer; exact Hp].
    destruct (RingBuffer.add _ _) as [fb [[]|e]]; [|exists answer; exact Hp].
    destruct (handle_message_emits env
                (set_frame_buffer (set_video_capture self vc) fb)) as (evs & q & Hs & _).
    destruct (handle_message env _) as [a s|e s|s] eqn:Hh; cbn [state_of except_Empty] in *.
    + exists answer. now rewrite Hs.
    + destruct e; cbn [state_of]; exists answer; now rewrite Hs.
    + now apply handle_message_not_blocked in Hh.
  - unfold read in Hread. destruct (pending _); [auto|discriminate].
Qed.
End ClipperMore.

Section ClipperWorker.
Context {Frame : Type}.
Import Clipper.
Implicit Types (self : Clipper.t Frame) (env : Clipper.Env Frame).

Lemma _start_enough_fuel env (fuel : nat) : forall self,
  (length (pending (_video_capture self)) < fuel)%nat ->
  _start env fuel self = _start env (S (length (pending (_video_capture self)))) self.
Proof.
  induction fuel as [|fuel IH]; intros self Hlt; [lia|].
  cbn [_start]. pose proof (iteration_pending env self) as Hp.
  destruct (iteration env self) as [[|] s|e s|s]; try reflexivity.
  cbn [state_of] in Hp. destruct Hp as [answer Hp].
  rewrite Hp in *. cbn [length] in *. apply IH. lia.
Qed.

(** The worker loop needs no more passes than the camera has answers: with
    any larger number of passes the outcome is the same, and when it is
    [Blocked] the answers are used up, so the loop is waiting for the camera
    and not for fuel. *)
Theorem start_outcome_is_fuel_independent env (fuel : nat) self :
  (length (pending (_video_capture self)) < fuel)%nat ->
  _start env fuel self = _start env (S (length (pending (_video_capture self)))) self /\
  forall self', _start env fuel self = Blocked self' ->
                pending (_video_capture self') = [].
Proof.
  intros Hlt. split; [now apply _start_enough_fuel|].
  revert self Hlt. induction fuel as [|fuel IH]; intros self Hlt self'; [lia|].
  cbn [_start]. pose proof (iteration_pending env self) as Hp.
  destruct (iteration env self) as [[|] s|e s|s]; try discriminate.
  - cbn [state_of] in Hp. destruct Hp as [answer Hp].
    apply IH. rewrite Hp in Hlt. cbn [length] in Hlt. lia.
  - destruct Hp as [-> Hp]. now intros [= <-].
Qed.

(** Messages are served first in, first out: [clip] puts its message at the
    back of the queue, and a pass takes at most one message, from the
    front. *)
Theorem queue_is_first_in_first_out env self length_ms file_name :
  (is_active self = true ->
   _msg_queue (state_of (clip self length_ms file_name))
   = _msg_queue self ++ [ClipMessage length_ms file_name]) /\
  (_msg_queue (state_of (iteration env self)) = _msg_queue self \/
   exists m, _msg_queue self = m :: _msg_queue (state_of (iteration env self))).
Proof.
  split.
  - intros Hact. unfold clip. now rewrite Hact.
  - unfold iteration.
    destruct (read (_video_capture self)) as [[vc [[|] frame]]|]; cbn [negb state_of];
      try (now left).
    destruct (RingBuffer.add _ _) as [fb [[]|e]]; [|now left].
    rewrite except_Empty_state.
    destruct (handle_message_emits env (set_frame_buffer (set_video_capture self vc) fb))
      as (evs & q & Hs & Hq).
    rewrite Hs. cbn [emits _msg_queue set_msg_queue]. exact Hq.
Qed.

(** [is_active()] never becomes false: whatever is called on a constructed
    Clipper and however far the worker gets, it returns [True]. *)
Theorem constructed_clipper_stays_active env (vc : VideoCapture Frame)
    (buffer_size estimated_fps : Z) self (cs : list Clipper.call) :
  __init__ vc buffer_size estimated_fps = Ok self ->
  is_active (run_calls env self cs) = true.
Proof.
  intros Hinit. rewrite run_calls_active. eapply init_active. exact Hinit.
Qed.

(** Once [stop] has returned the worker is gone for good: a clip request
    made afterwards is accepted onto the queue and stays there, no pass will
    ever serve it. *)
Theorem clip_after_stop_is_never_served env self self1 length_ms file_name
    (passes : nat) :
  is_active self = true -> stop env self = Returned tt self1 ->
  let self2 := state_of (clip self1 length_ms file_name) in
  _msg_queue self2 = _msg_queue self1 ++ [ClipMessage length_ms file_name] /\
  thread_passes env passes self2 = self2.
Proof.
  intros Hact Hstop.
  destruct (stop_returns_ended env self self1 Hact Hstop) as [H1 Hend].
  unfold clip. rewrite H1. cbn [negb state_of]. split; [reflexivity|].
  apply thread_passes_ended. exact Hend.
Qed.
End ClipperWorker.

Section ClipperStop.
Context {Frame : Type}.
Import Clipper.
Implicit Types (self : Clipper.t Frame) (env : Clipper.Env Frame).

(** [k] failed reads cost [k] passes and leave [k] log lines. *)
Lemma failed_reads_are_skipped env (fuel : nat) (rest : list (option Frame)) (k : nat) :
  forall self,
    pending (_video_capture self) = replicate k None ++ rest ->
    _start env (k + fuel) self
    = _start env fuel
        (emits (set_video_capture self
                  {| pending := rest;
                     frame_width := frame_width (_video_capture self);
                     frame_height := frame_height (_video_capture self);
                     released := released (_video_capture self) |})
               (replicate k (Print "Unable to capture video frame"))).
Proof.
  induction k as [|k IH]; intros self Hp.
  - cbn [replicate app Nat.add] in *. f_equal. rewrite emits_nil.
    destruct self as [[p w h r] q th fps fb ms ev]. cbn in *. now subst.
  - cbn [replicate app Nat.add] in *. cbn [_start]. unfold iteration, read.
    rewrite Hp. cbn [negb]. rewrite IH by reflexivity.
    f_equal. unfold emit, emits, set_video_capture. cbn. f_equal.
    now rewrite <- app_assoc.
Qed.

(** [stop] on a running Clipper with an empty queue returns at the first
    frame the camera delivers: the failed reads before it are logged, the
    frame is stored, the stop message is taken, the thread has finished and
    the capture is released once. *)
Theorem stop_returns_at_first_frame env self (k : nat) (frame : Frame)
    (later : list (option Frame)) :
  _thread self = Some Running -> _msg_queue self = [] ->
  1 <= RingBuffer.__len__ (_frame_buffer self) ->
  pending (_video_capture self) = replicate k None ++ Some frame :: later ->
  exists self',
    stop env self = Returned tt self' /\
    _thread self' = Some Finished /\
    _msg_queue self' = [] /\
    pending (_video_capture self') = later /\
    released (_video_capture self') = S (released (_video_capture self)) /\
    _frame_buffer self' = fst (RingBuffer.add (_frame_buffer self) (Some frame)) /\
    events self' = events self ++ [ThreadJoin]
                   ++ replicate k (Print "Unable to capture video frame")
                   ++ [CaptureRelease].
Proof.
  intros Hth Hq HC Hp. unfold stop, is_active. rewrite Hth. cbn [negb].
  unfold join, run_thread, thread_passes.
  cbn [emit emits set_msg_queue _thread _video_capture]. rewrite Hth, Hp.
  rewrite length_app, length_replicate. cbn [length].
  replace (S (k + S (length later))) with (k + S (S (length later)))%nat by lia.
  rewrite failed_reads_are_skipped with (rest := Some frame :: later) by exact Hp.
  cbn [_start]. unfold iteration, read.
  cbn [emits set_video_capture _video_capture pending negb _frame_buffer].
  rewrite add_ok by exact HC. unfold handle_message.
  cbn [set_frame_buffer _msg_queue except_Empty]. rewrite Hq.
  cbn [app except_Empty set_thread _thread].
  eexists. split; [reflexivity|]. cbn. rewrite add_ok by exact HC.
  repeat split. now rewrite <- !app_assoc.
Qed.

(** While every read fails, [stop] does not return: a failed read skips the
    look at the queue, so the stop message stays queued and the thread keeps
    running. *)
Theorem stop_waits_for_a_frame env self (k : nat) :
  _thread self = Some Running ->
  pending (_video_capture self) = replicate k None ->
  exists self',
    stop env self = Blocked self' /\
    _thread self' = Some Running /\
    _msg_queue self' = _msg_queue self ++ [StopMessage] /\
    released (_video_capture self') = released (_video_capture self).
Proof.
  intros Hth Hp. unfold stop, is_active. rewrite Hth. cbn [negb].
  unfold join, run_thread, thread_passes.
  cbn [emit emits set_msg_queue _thread _video_capture]. rewrite Hth, Hp.
  rewrite length_replicate.
  replace (S k) with (k + 1)%nat by lia.
  rewrite failed_reads_are_skipped with (rest := []);
    [|cbn; rewrite Hp; now rewrite app_nil_r].
  cbn [_start]. unfold iteration, read.
  cbn [emit emits set_video_capture set_msg_queue _video_capture pending _thread].
  rewrite Hth. eexists. split; [reflexivity|]. cbn. auto.
Qed.

(** A Clipper built with a buffer size below [1] loses its worker at the
    first frame read: the buffer insert raises [ZeroDivisionError], which
    nothing catches. *)
Theorem worker_dies_without_buffer env (vc : VideoCapture Frame)
    (buffer_size estimated_fps : Z) self (frame : Frame)
    (later : list (option Frame)) (passes : nat) :
  buffer_size < 1 -> __init__ vc buffer_size estimated_fps = Ok self ->
  pending vc = Some frame :: later ->
  _thread (thread_passes env (S passes) self) = Some (Died ZeroDivisionError).
Proof.
  intros Hs Hinit Hp. unfold __init__ in Hinit.
  destruct (RingBuffer.__init__ buffer_size _) as [fb|] eqn:Hfb; [|discriminate].
  apply init_unfold in Hfb. subst fb. cbn [rbind] in Hinit.
  destruct (int_truediv 1 estimated_fps); [|discriminate]. cbn [rbind] in Hinit.
  destruct (float_of_int 1000); [|discriminate]. cbn [rbind] in Hinit.
  injection Hinit as <-. unfold thread_passes. cbn [_thread _start].
  unfold iteration, read. cbn [_video_capture]. rewrite Hp.
  cbn [negb set_video_capture _frame_buffer]. unfold RingBuffer.add.
  cbn [RingBuffer.buffer]. unfold py_list_repeat.
  replace (Z.to_nat buffer_size) with 0%nat by lia. reflexivity.
Qed.
End ClipperStop.

(** ** loudness.py *)

Section LoudnessDetectorFacts.
Context {Audio Mean : Type}.
Variable np_mean_abs : Audio -> Mean.
Variable mean_gt : Mean -> Z -> bool.
Import LoudnessDetector.
Implicit Types (self : LoudnessDetector.t Audio Mean).

Lemma detector_sleep_active self : _active (state_of (sleep self)) = _active self.
Proof.
  unfold sleep. destruct (int_truediv _ _) as [secs|e]; [|reflexivity].
  now destruct (float_is_negative secs).
Qed.

Lemma detector_handle_message_active self :
  _active (state_of (handle_message self)) = _active self.
Proof.
  unfold handle_message. destruct (_in_queue self) as [|msg rest]; [reflexivity|].
  now destruct (String.eqb msg "stop").
Qed.

Lemma detector_iteration_active self :
  _active (state_of (iteration np_mean_abs mean_gt self)) = _active self.
Proof.
  unfold iteration. destruct (stream self) as [|a later]; [reflexivity|].
  destruct (mean_gt _ _).
  - match goal with |- context [sleep ?s] =>
      pose proof (detector_sleep_active s) as H;
      destruct (sleep s) as [[] s4|e s4|s4] end; cbn [state_of] in *; try exact H.
    now rewrite detector_handle_message_active.
  - now rewrite detector_handle_message_active.
Qed.

Lemma detector_start_active (fuel : nat) : forall self,
  _active (state_of (_start np_mean_abs mean_gt fuel self)) = _active self.
Proof.
  induction fuel as [|fuel IH]; intros self; cbn [_start]; [reflexivity|].
  pose proof (detector_iteration_active self) as H.
  destruct (iteration np_mean_abs mean_gt self) as [[|] s|e s|s];
    cbn [state_of] in *; try exact H.
  now rewrite IH.
Qed.

Lemma detector_thread_passes_active (passes : nat) self :
  _active (thread_passes np_mean_abs mean_gt passes self) = _active self.
Proof.
  unfold thread_passes. destruct (_thread self); try reflexivity.
  pose proof (detector_start_active passes self) as H.
  destruct (_start np_mean_abs mean_gt passes self) as [[] s|e s|s];
    cbn [state_of] in *; exact H.
Qed.

(** [stop] clears [_active] before anything else, so whatever the first
    call did, even if it is still waiting in [join], every later [stop] is a
    no-op: it returns at once and changes nothing. *)
Theorem detector_stop_is_idempotent self :
  _active (state_of (stop np_mean_abs mean_gt self)) = false /\
  stop np_mean_abs mean_gt (state_of (stop np_mean_abs mean_gt self))
  = Returned tt (state_of (stop np_mean_abs mean_gt self)).
Proof.
  assert (H : _active (state_of (stop np_mean_abs mean_gt self)) = false).
  { unfold stop. destruct (_active self) eqn:E; cbn [negb state_of]; [|exact E].
    unfold join.
    match goal with |- context [thread_passes ?f ?g ?n ?s] =>
      pose proof (detector_thread_passes_active n s) as Hp;
      destruct (_thread (thread_passes f g n s)) end;
      cbn [state_of]; exact Hp. }
  split; [exact H|].
  generalize dependent (state_of (stop np_mean_abs mean_gt self)).
  intros s Hs. unfold stop. now rewrite Hs.
Qed.

(** With no message waiting and the default cooldown of 0 ms, the passes of
    the detector turn the buffers read into triggers one for one: after
    [fuel] passes the output queue has grown by the means of exactly the loud
    ones among the first [fuel] buffers, in the order they were read, and the
    loop is still running. *)
Theorem loud_buffers_trigger_in_order (fuel : nat) : forall self,
  _in_queue self = [] -> _buffer_ms self = 0 ->
  exists self',
    _start np_mean_abs mean_gt fuel self = Blocked self' /\
    out_queue self'
    = out_queue self
      ++ map np_mean_abs
           (List.filter (fun a => mean_gt (np_mean_abs a) (_threshold self))
                        (take fuel (stream self))) /\
    stream self' = drop fuel (stream self) /\
    _in_queue self' = [] /\ _threshold self' = _threshold self /\
    _buffer_ms self' = 0.
Proof.
  induction fuel as [|fuel IH]; intros self Hq Hb.
  - exists self. cbn. rewrite app_nil_r. repeat split; auto.
  - cbn [_start]. unfold iteration.
    destruct (stream self) as [|a later] eqn:Hs.
    + exists self. cbn. rewrite app_nil_r, Hs. repeat split; auto.
    + cbn [set_stream _threshold take drop List.filter].
      destruct (mean_gt (np_mean_abs a) (_threshold self)) eqn:Hl.
      * unfold sleep. cbn [set_out_queue set_stream emit emits _buffer_ms]. rewrite Hb.
        change (int_truediv 0 1000) with (@Ok float (S754_zero false)).
        cbn [float_is_negative].
        unfold handle_message. cbn [emit emits set_out_queue set_stream _in_queue]. rewrite Hq.
        match goal with |- context [_start _ _ fuel ?s] =>
          destruct (IH s) as (self' & Hrun & Hout & Hst & Hq' & Ht & Hb') end;
          [exact Hq|exact Hb|].
        exists self'. split; [exact Hrun|]. cbn in Hout, Hst, Ht.
        rewrite Hout, Hst, Ht. cbn [map]. rewrite <- app_assoc. repeat split; auto.
      * unfold handle_message. cbn [set_stream _in_queue]. rewrite Hq.
        match goal with |- context [_start _ _ fuel ?s] =>
          destruct (IH s) as (self' & Hrun & Hout & Hst & Hq' & Ht & Hb') end;
          [exact Hq|exact Hb|].
        exists self'. split; [exact Hrun|]. cbn in Hout, Hst, Ht.
        rewrite Hout, Hst, Ht. repeat split; auto.
Qed.
End LoudnessDetectorFacts.

(** ** Concrete runs of the further properties *)

Section MoreRuns.
Import Clipper Sample.

Lemma add_shifts_window_witness :
  let rb := {| RingBuffer.buffer := ["A"; "B"; "C"]; RingBuffer.endIndex := 0 |} in
  snd (RingBuffer.add rb "D") = Ok tt /\
  RingBuffer.get (fst (RingBuffer.add rb "D")) (3 - 1) = Ok "D" /\
  forall i, 0 <= i < 3 - 1 ->
    RingBuffer.get (fst (RingBuffer.add rb "D")) i = RingBuffer.get rb (i + 1).
Proof.
  apply (add_shifts_window
           {| RingBuffer.buffer := ["A"; "B"; "C"]; RingBuffer.endIndex := 0 |} "D").
  vm_compute. discriminate.
Defined.

Lemma get_shows_recent_history_witness :
  let rb := {| RingBuffer.buffer := ["P"; "P"; "P"]; RingBuffer.endIndex := 2 |} in
  snd (RingBuffer.add_all rb ["A"]) = Ok tt /\
  RingBuffer.get (fst (RingBuffer.add_all rb ["A"])) 1
  = py_getitem (py_list_repeat "P" 3 ++ ["A"]) (len ["A"] + 1).
Proof.
  apply (get_shows_recent_history 3 "P" ["A"]
           {| RingBuffer.buffer := ["P"; "P"; "P"]; RingBuffer.endIndex := 2 |} 1);
    [lia | reflexivity | lia].
Defined.

Lemma empty_buffer_is_unusable_witness :
  let rb := {| RingBuffer.buffer := @nil string; RingBuffer.endIndex := -1 |} in
  RingBuffer.run_calls rb [RingBuffer.CallAdd "A"; RingBuffer.CallGet 0] = rb /\
  RingBuffer.__len__ rb = 0 /\
  (forall x, RingBuffer.add rb x = (rb, Raise ZeroDivisionError)) /\
  (forall i, RingBuffer.get rb i = Raise (IndexError "Out of range")).
Proof.
  apply (empty_buffer_is_unusable (-2) "P"
           [RingBuffer.CallAdd "A"; RingBuffer.CallGet 0]
           {| RingBuffer.buffer := @nil string; RingBuffer.endIndex := -1 |});
    [lia | reflexivity].
Defined.

Lemma cursor_after_inserts_witness :
  let rb := {| RingBuffer.buffer := ["P"; "P"; "P"]; RingBuffer.endIndex := 2 |} in
  RingBuffer.endIndex (fst (RingBuffer.add_all rb ["A"; "B"; "C"; "D"]))
  = (3 - 1 + len ["A"; "B"; "C"; "D"]) mod 3 /\
  py_getitem
    (RingBuffer.buffer (fst (RingBuffer.add_all rb (["A"; "B"; "C"; "D"] ++ ["E"]))))
    (RingBuffer.endIndex (fst (RingBuffer.add_all rb (["A"; "B"; "C"; "D"] ++ ["E"]))))
  = Ok "E".
Proof.
  apply (cursor_after_inserts 3 "P" ["A"; "B"; "C"; "D"] "E"
           {| RingBuffer.buffer := ["P"; "P"; "P"]; RingBuffer.endIndex := 2 |});
    [lia | reflexivity].
Defined.

Lemma start_outcome_is_fuel_independent_witness :
  let self := clipper capture 4 30 ms_per_frame_30 in
  _start quiet_env 10 self = _start quiet_env (S (length (pending (_video_capture self)))) self /\
  forall self', _start quiet_env 10 self = Blocked self' ->
                pending (_video_capture self') = [].
Proof.
  apply (start_outcome_is_fuel_independent quiet_env 10
           (clipper capture 4 30 ms_per_frame_30)).
  vm_compute. lia.
Defined.

Lemma queue_is_first_in_first_out_witness :
  let self := state_of (clip (clipper capture 4 30 ms_per_frame_30) 100 "a.mp4") in
  _msg_queue (state_of (clip self 200 "b.mp4"))
  = _msg_queue self ++ [ClipMessage 200 "b.mp4"].
Proof.
  apply (proj1 (queue_is_first_in_first_out quiet_env
           (state_of (clip (clipper capture 4 30 ms_per_frame_30) 100 "a.mp4"))
           200 "b.mp4")).
  reflexivity.
Defined.

Lemma constructed_clipper_stays_active_witness :
  is_active (run_calls quiet_env (clipper capture 2 30 ms_per_frame_30)
               [CallClip 100 "a.mp4"; WorkerPasses 1; CallStop; CallStop;
                CallClip 100 "b.mp4"]) = true.
Proof.
  apply (constructed_clipper_stays_active quiet_env capture 2 30).
  vm_compute. reflexivity.
Defined.

Lemma clip_after_stop_is_never_served_witness :
  let self1 := state_of (stop quiet_env (clipper capture 2 30 ms_per_frame_30)) in
  let self2 := state_of (clip self1 100 "late.mp4") in
  _msg_queue self2 = _msg_queue self1 ++ [ClipMessage 100 "late.mp4"] /\
  thread_passes quiet_env 5 self2 = self2.
Proof.
  apply (clip_after_stop_is_never_served quiet_env (clipper capture 2 30 ms_per_frame_30));
    vm_compute; reflexivity.
Defined.

Lemma stop_returns_at_first_frame_witness :
  let self := clipper flaky_capture 4 30 ms_per_frame_30 in
  exists self',
    stop quiet_env self = Returned tt self' /\
    _thread self' = Some Finished /\
    _msg_queue self' = [] /\
    pending (_video_capture self') = [] /\
    released (_video_capture self') = S (released (_video_capture self)) /\
    _frame_buffer self' = fst (RingBuffer.add (_frame_buffer self) (Some 1%nat)) /\
    events self' = events self ++ [ThreadJoin]
                   ++ replicate 1 (Print "Unable to capture video frame")
                   ++ [CaptureRelease].
Proof.
  apply (stop_returns_at_first_frame quiet_env (clipper flaky_capture 4 30 ms_per_frame_30)
           1 1%nat []); try reflexivity.
  vm_compute. discriminate.
Defined.

Lemma stop_waits_for_a_frame_witness :
  let self := clipper {| pending := [None; None]; frame_width := 640;
                         frame_height := 480; released := 0 |} 4 30 ms_per_frame_30 in
  exists self',
    stop quiet_env self = Blocked self' /\
    _thread self' = Some Running /\
    _msg_queue self' = _msg_queue self ++ [StopMessage] /\
    released (_video_capture self') = released (_video_capture self).
Proof.
  apply (stop_waits_for_a_frame quiet_env
           (clipper {| pending := [None; None]; frame_width := 640;
                       frame_height := 480; released := 0 |} 4 30 ms_per_frame_30) 2);
    reflexivity.
Defined.

Lemma worker_dies_without_buffer_witness :
  _thread (thread_passes quiet_env 1 (clipper capture 0 30 ms_per_frame_30))
  = Some (Died ZeroDivisionError).
Proof.
  apply (worker_dies_without_buffer quiet_env capture 0 30
           (clipper capture 0 30 ms_per_frame_30) 1%nat [Some 2%nat; Some 3%nat] 0);
    [lia | vm_compute; reflexivity | reflexivity].
Defined.

(** A detector on four buffers whose means are 10, 3000, 20 and 4000, with
    threshold 2500. *)
Lemma loud_buffers_trigger_in_order_witness :
  let self := LoudnessDetector.__init__ [10; 3000; 20; 4000] 2500 0 in
  exists self',
    LoudnessDetector._start (fun a : Z => a) Z.gtb 3 self
    = LoudnessDetector.Blocked self' /\
    LoudnessDetector.out_queue self'
    = LoudnessDetector.out_queue self
      ++ map (fun a : Z => a)
           (List.filter (fun a => Z.gtb a (LoudnessDetector._threshold self))
                        (take 3 (LoudnessDetector.stream self))) /\
    LoudnessDetector.stream self' = drop 3 (LoudnessDetector.stream self) /\
    LoudnessDetector._in_queue self' = [] /\
    LoudnessDetector._threshold self' = LoudnessDetector._threshold self /\
    LoudnessDetector._buffer_ms self' = 0.
Proof.
  apply (loud_buffers_trigger_in_order (fun a : Z => a) Z.gtb 3
           (LoudnessDetector.__init__ [10; 3000; 20; 4000] 2500 0));
    reflexivity.
Defined.
End MoreRuns.

(** ** What stays fixed in a constructed Clipper *)

Section ClipperConstructed.
Context {Frame : Type}.
Import Clipper.
Implicit Types (self : Clipper.t Frame) (env : Clipper.Env Frame).







End ClipperConstructed.

(** ** How a pass of the capture loop ends *)

Section ClipperLoopOutcomes.
Context {Frame : Type}.
Import Clipper.
Implicit Types (self : Clipper.t Frame) (env : Clipper.Env Frame).

Lemma num_frames_raise_not_Empty self length_ms e :
  num_frames self length_ms = Raise e -> e <> Empty.
Proof.
  unfold num_frames, float_of_int, finite_or_overflow, float_truediv.
  destruct (binary_normalize _ _ _ _ _) as [s| | |s m ex]; cbn [rbind];
    try (intros [= <-]; discriminate).
  all: destruct (float_is_zero _); cbn [rbind]; try (intros [= <-]; discriminate).
  all: unfold py_round; destruct (SFdiv _ _ _ _) as [s'| | |s' m' e']; cbn [rbind];
    try discriminate; intros [= <-]; discriminate.
Qed.

Lemma _save_clip_raise_not_Empty env self length_ms file e self' :
  _save_clip env self length_ms file = Raised e self' -> e <> Empty.
Proof.
  unfold _save_clip. destruct (num_frames self length_ms) as [n|e0] eqn:Hn.
  - destruct (VideoWriter_raises env file); [intros [= <- _]; discriminate|].
    match goal with |- context [write_frames ?e ?f ?l ?s] =>
      pose proof (write_frames_raised e f l s) as Hr;
      destruct (write_frames e f l s) as [[] s2|ex s2|s2] end; try discriminate.
    intros [= <- <-]. rewrite (Hr ex s2); [discriminate| |reflexivity].
    apply Forall_forall. intros i Hi. apply elem_of_seqZ in Hi.
    apply num_frames_le in Hn. cbn [emit emits _frame_buffer]. lia.
  - intros [= <- _]. eapply num_frames_raise_not_Empty. exact Hn.
Qed.

(** C3, as amended. A pass whose frame read fails logs and is followed by
    the next pass; so is a pass that finds the queue empty and a pass whose
    clip save returns. The loop ends by [break] exactly when a pass takes a
    stop message. It ends by an exception exactly when the buffer insert
    raises, when the message taken is of an unknown kind, or when the clip
    save raises: only [Empty] is caught, and a clip save never raises
    that. *)
Theorem loop_pass_outcomes env self (fuel : nat) :
  (forall vc frame,
     read (_video_capture self) = Some (vc, (false, frame)) ->
     _start env (S fuel) self
     = _start env fuel (emit (set_video_capture self vc)
                              (Print "Unable to capture video frame"))) /\
  (forall vc frame fb,
     read (_video_capture self) = Some (vc, (true, frame)) ->
     RingBuffer.add (_frame_buffer self) frame = (fb, Ok tt) ->
     let self1 := set_frame_buffer (set_video_capture self vc) fb in
     (_msg_queue self = [] -> _start env (S fuel) self = _start env fuel self1) /\
     (forall rest, _msg_queue self = StopMessage :: rest ->
        _start env (S fuel) self = Returned tt (set_msg_queue self1 rest)) /\
     (forall kind rest, _msg_queue self = OtherMessage kind :: rest ->
        _start env (S fuel) self
        = Raised (Exception "Unknown message type") (set_msg_queue self1 rest)) /\
     (forall length_ms file_name rest self2,
        _msg_queue self = ClipMessage length_ms file_name :: rest ->
        _save_clip env (set_msg_queue self1 rest) length_ms file_name
        = Returned tt self2 ->
        _start env (S fuel) self = _start env fuel self2) /\
     (forall length_ms file_name rest e self2,
        _msg_queue self = ClipMessage length_ms file_name :: rest ->
        _save_clip env (set_msg_queue self1 rest) length_ms file_name
        = Raised e self2 ->
        _start env (S fuel) self = Raised e self2)) /\
  (forall vc frame fb e,
     read (_video_capture self) = Some (vc, (true, frame)) ->
     RingBuffer.add (_frame_buffer self) frame = (fb, Raise e) ->
     _start env (S fuel) self
     = Raised e (set_frame_buffer (set_video_capture self vc) fb)) /\
  (forall self', iteration env self = Returned Break self' ->
     exists rest, _msg_queue self = StopMessage :: rest) /\
  (forall e self', iteration env self = Raised e self' ->
     exists vc frame fb r,
       read (_video_capture self) = Some (vc, (true, frame)) /\
       RingBuffer.add (_frame_buffer self) frame = (fb, r) /\
       (r = Raise e \/
        (exists kind rest, _msg_queue self = OtherMessage kind :: rest /\
           e = Exception "Unknown message type") \/
        (exists length_ms file_name rest,
           _msg_queue self = ClipMessage length_ms file_name :: rest /\
           _save_clip env
             (set_msg_queue (set_frame_buffer (set_video_capture self vc) fb) rest)
             length_ms file_name = Raised e self'))).
Proof.
  split; [|split; [|split; [|split]]].
  - intros vc frame Hread. cbn [_start]. unfold iteration. rewrite Hread.
    reflexivity.
  - intros vc frame fb Hread Hadd self1.
    assert (Hit : iteration env self = except_Empty (handle_message env self1)).
    { unfold iteration. rewrite Hread. cbn [negb set_video_capture _frame_buffer].
      rewrite Hadd. reflexivity. }
    assert (Hq1 : _msg_queue self1 = _msg_queue self) by reflexivity.
    split; [|split; [|split; [|split]]].
    + intros Hq. cbn [_start]. rewrite Hit. unfold handle_message.
      rewrite Hq1, Hq. reflexivity.
    + intros rest Hq. cbn [_start]. rewrite Hit. unfold handle_message.
      rewrite Hq1, Hq. reflexivity.
    + intros kind rest Hq. cbn [_start]. rewrite Hit. unfold handle_message.
      rewrite Hq1, Hq. reflexivity.
    + intros l f rest self2 Hq Hsave. cbn [_start]. rewrite Hit.
      unfold handle_message. rewrite Hq1, Hq, Hsave. reflexivity.
    + intros l f rest e self2 Hq Hsave. cbn [_start]. rewrite Hit.
      unfold handle_message. rewrite Hq1, Hq, Hsave.
      pose proof (_save_clip_raise_not_Empty _ _ _ _ _ _ Hsave) as Hne.
      destruct e; try reflexivity. congruence.
  - intros vc frame fb e Hread Hadd. cbn [_start]. unfold iteration.
    rewrite Hread. cbn [negb set_video_capture _frame_buffer]. rewrite Hadd.
    reflexivity.
  - intros self'. unfold iteration.
    destruct (read _) as [[vc [[|] frame]]|]; try discriminate. cbn [negb].
    destruct (RingBuffer.add _ _) as [fb [[]|e]]; try discriminate.
    unfold handle_message. cbn [set_frame_buffer set_video_capture _msg_queue].
    destruct (_msg_queue self) as [|[l f| |k] rest]; try discriminate.
    + destruct (_save_clip env _ l f) as [[] s2|[] s2|s2]; discriminate.
    + intros _. now exists rest.
  - intros e self'. unfold iteration.
    destruct (read _) as [[vc [[|] frame]]|]; try discriminate. cbn [negb].
    cbn [set_video_capture _frame_buffer].
    destruct (RingBuffer.add _ _) as [fb [[]|e0]] eqn:Hadd.
    + intros H. exists vc, frame, fb, (Ok tt). split; [reflexivity|]. split; [exact Hadd|].
      right.
      destruct (handle_message env _) as [a s|e1 s|s] eqn:Hh; try discriminate.
      assert (e1 = e /\ s = self') as [-> ->].
      { destruct e1; cbn in H; try discriminate; now injection H as <- <-. }
      apply handle_message_raised in Hh as [(_ & -> & _)|[H1|H1]].
      * discriminate.
      * left. exact H1.
      * right. exact H1.
    + intros [= <- <-]. exists vc, frame, fb, (Raise e0).
      split; [reflexivity|]. split; [exact Hadd|]. now left.
Qed.
End ClipperLoopOutcomes.

Section ClipperPassOrder.
Context {Frame : Type}.
Import Clipper.
Implicit Types (self : Clipper.t Frame) (env : Clipper.Env Frame).


End ClipperPassOrder.

(** ** Concrete runs of the loop and of the clip save *)

Section LoopRuns.
Import Clipper Sample.

(** C3 as stated fails, with a writer that never raises. A clip request
    whose duration is too large for a float makes [_save_clip] raise
    [OverflowError]: the pass raises instead of continuing and the thread is
    dead, though no stop message and no unknown message was taken. And a
    Clipper with buffer size 0 loses its thread at the first frame, with an
    empty queue. *)
Lemma bad_clip_request_ends_the_loop :
  let self := clipper capture 4 30 ms_per_frame_30 in
  let self1 := state_of (clip self (10 ^ 400) "x.mp4") in
  __init__ capture 4 30 = Ok self /\
  clip self (10 ^ 400) "x.mp4" = Returned tt self1 /\
  _msg_queue self1 = [ClipMessage (10 ^ 400) "x.mp4"] /\
  (exists self2, iteration quiet_env self1 = Raised OverflowError self2) /\
  (exists self2, _start quiet_env 3 self1 = Raised OverflowError self2) /\
  _thread (thread_passes quiet_env 3 self1) = Some (Died OverflowError) /\
  __init__ capture 0 30 = Ok (clipper capture 0 30 ms_per_frame_30) /\
  _msg_queue (clipper capture 0 30 ms_per_frame_30) = [] /\
  _thread (thread_passes quiet_env 3 (clipper capture 0 30 ms_per_frame_30))
  = Some (Died ZeroDivisionError).
Proof.
  split; [vm_compute; reflexivity|]. split; [reflexivity|]. split; [reflexivity|].
  split; [eexists; vm_compute; reflexivity|].
  split; [eexists; vm_compute; reflexivity|].
  split; [vm_compute; reflexivity|].
  split; [vm_compute; reflexivity|]. split; [reflexivity|].
  vm_compute. reflexivity.
Qed.

Lemma loop_pass_outcomes_witness :
  (let self := clipper flaky_capture 4 30 ms_per_frame_30 in
   let vc := {| pending := [Some 1%nat]; frame_width := 640; frame_height := 480;
                released := 0 |} in
   read (_video_capture self) = Some (vc, (false, None)) /\
   _start quiet_env 3 self
   = _start quiet_env 2
       (emit (set_video_capture self vc) (Print "Unable to capture video frame"))) /\
  (let self := state_of (clip (clipper capture 4 30 ms_per_frame_30) (10 ^ 400) "x.mp4") in
   exists self2, _start quiet_env 3 self = Raised OverflowError self2).
Proof.
  split.
  - split; [reflexivity|].
    apply (proj1 (loop_pass_outcomes quiet_env
                    (clipper flaky_capture 4 30 ms_per_frame_30) 2) _ None).
    reflexivity.
  - eexists.
    apply (proj2 (proj2 (proj2 (proj2
             (proj1 (proj2 (loop_pass_outcomes quiet_env
                (state_of (clip (clipper capture 4 30 ms_per_frame_30) (10 ^ 400) "x.mp4"))
                2))
                {| pending := [Some 2%nat; Some 3%nat]; frame_width := 640;
                   frame_height := 480; released := 0 |}
                (Some 1%nat)
                {| RingBuffer.buffer := [Some 1%nat; None; None; None];
                   RingBuffer.endIndex := 0 |}
                eq_refl eq_refl))))
             (10 ^ 400) "x.mp4" [] OverflowError _ eq_refl).
    vm_compute. reflexivity.
Defined.



End LoopRuns.
